(** * WebWaka fintech: the transaction endpoints of the payment blueprints

    A shallow embedding of the Flask handlers that create, update and
    aggregate payment transactions
    ([src/routes/african_payment_framework.py] and
    [src/routes/tier1_critical_platforms.py]) together with the SQLAlchemy
    models they persist, and the properties of the stored ledger that follow
    from the handlers' code.

    Conventions of the embedding:
    - a request body is the decoded JSON object, a finite map from keys to
      JSON values; Python's [None] is [JNull];
    - a [Numeric(15, 2)] column is a fixed-point decimal and is held as its
      count of hundredths; JSON numbers are held the same way;
    - a Python [float] is an IEEE binary64 value, held as a primitive float;
    - a [DateTime] is a count of microseconds;
    - [datetime.utcnow()] and [uuid.uuid4()] read two sources that the world
      carries along, so that handlers are functions of the world;
    - a column keeps the value that was bound to it: the conversions SQLite
      makes between numbers and text are not modelled, the fee columns keep
      the two places of a JSON number, and dates are not bounded. *)

From Stdlib Require Import ZArith Ascii String Floats.
From stdpp Require Import gmap strings list pretty.

Set Warnings "-register-all".

Local Open Scope string_scope.
Local Open Scope Z_scope.

(** ** Python values *)

Inductive json : Type :=
  | JNull
  | JBool (b : bool)
  | JNum (hundredths : Z)
  | JStr (s : string)
  | JArr (items : list json)
  | JObj (members : list (string * json)).

(** The numbers a handler puts in a response: Python keeps [int] and
    [float] apart, and so does the embedding. *)
Inductive pynum : Type :=
  | PyInt (z : Z)
  | PyFloat (f : float).

Inductive exn : Type :=
  | AttributeError
  | TypeError
  | ValueError
  | IntegrityError
  | InterfaceError
  | NotFound.

(** What a Python expression yields: a value, or an exception on its way
    to the handler's [except] clause. *)
Inductive result (A : Type) : Type :=
  | Ok (a : A)
  | Raise (e : exn).
Arguments Ok {A} a.
Arguments Raise {A} e.

Definition datetime := Z.

(** [d.get(k)]: the value under [k], or [None]. *)
Definition dict_get (data : gmap string json) (k : string) : json :=
  default JNull (data !! k).

(** [k in d] *)
Definition dict_has (data : gmap string json) (k : string) : bool :=
  bool_decide (is_Some (data !! k)).

(** [str.upper] on the ASCII letters. *)
Definition ascii_upper (c : ascii) : ascii :=
  let n := nat_of_ascii c in
  if ((97 <=? n)%nat && (n <=? 122)%nat)%bool then ascii_of_nat (n - 32) else c.

Fixpoint upper (s : string) : string :=
  match s with
  | EmptyString => EmptyString
  | String c rest => String (ascii_upper c) (upper rest)
  end.

(** ** Floating point

    [float(n)] for a Python [int] within the 53 bits a binary64 holds
    exactly, which covers every [Numeric(15, 2)] value in hundredths. *)
Definition float_of_Z (z : Z) : float :=
  if z <? 0 then PrimFloat.opp (PrimFloat.of_uint63 (Uint63.of_Z (- z)))
  else PrimFloat.of_uint63 (Uint63.of_Z z).

(** [float(d)] for a two-place [Decimal] [d]: the binary64 nearest to
    [hundredths / 100]. *)
Definition float_of_decimal (hundredths : Z) : float :=
  PrimFloat.div (float_of_Z hundredths) (float_of_Z 100).

(** The exact value of a finite float as [m * 2^e], and [int(f)], which
    truncates towards zero and raises on infinities and NaN. *)
Definition int_of_float (f : float) : option Z :=
  match Prim2SF f with
  | S754_zero _ => Some 0
  | S754_finite sign m e =>
      let magnitude := if 0 <=? e then Z.pos m * 2 ^ e else Z.pos m / 2 ^ (- e) in
      Some (if sign then - magnitude else magnitude)
  | S754_infinity _ | S754_nan => None
  end.


(** [sum(xs)] over a list of floats: the start value is the [int] 0 and
    the floats are added to it from left to right, each addition rounded.
    (CPython 3.12 and later carry a correction term along; the embedding is
    the plain running sum.) *)
Definition py_sum (xs : list float) : pynum :=
  match xs with
  | [] => PyInt 0
  | _ => PyFloat (foldl PrimFloat.add (float_of_Z 0) xs)
  end.

(** [x / n] for a count [n > 0]: true division, a float whatever [x] is. *)
Definition py_div (x : pynum) (n : nat) : pynum :=
  let numerator := match x with
                   | PyInt z => float_of_Z z
                   | PyFloat f => f
                   end in
  PyFloat (PrimFloat.div numerator (float_of_Z (Z.of_nat n))).

(** ** What SQLite accepts as a bound parameter

    The sqlite3 driver binds [None], numbers and strings and refuses lists
    and dicts.  A [Numeric] column converts its value with [float(...)]
    before binding; numeric strings are outside the embedding and are
    refused like any other string. *)
Definition sqlite_scalar (v : json) : bool :=
  match v with
  | JArr _ | JObj _ => false
  | _ => true
  end.

Definition numeric_bind (v : json) : result (option Z) :=
  match v with
  | JNull => Ok None
  | JNum z => Ok (Some z)
  | JBool b => Ok (Some (if b then 100 else 0))
  | JStr _ => Raise ValueError
  | JArr _ | JObj _ => Raise TypeError
  end.

(** A nullable text column: it takes any scalar the driver binds. *)
Definition text_bind (v : json) : result json :=
  if sqlite_scalar v then Ok v else Raise InterfaceError.

(** A [nullable=False] column refuses [NULL]. *)
Definition not_null (v : json) : result json :=
  match v with
  | JNull => Raise IntegrityError
  | _ => Ok v
  end.

Definition result_bind {A B : Type} (r : result A) (k : A -> result B) : result B :=
  match r with
  | Ok a => k a
  | Raise e => Raise e
  end.

(** [float(x) if x else 0.0] on a [Numeric] column, as both models'
    [to_dict] write it: [None] and a zero decimal are falsy. *)
Definition float_or_zero (x : option Z) : pynum :=
  match x with
  | Some hundredths =>
      if hundredths =? 0 then PyFloat 0%float else PyFloat (float_of_decimal hundredths)
  | None => PyFloat 0%float
  end.

(** ** Models of [models/african_payment_framework.py] *)

Module African.

Record AfricanPaymentGateway : Type := {
  gw_gateway_id : string;
  gw_country_code : string;
  gw_status : json;
}.

Record PaymentGatewayIntegration : Type := {
  int_integration_id : string;
  int_gateway_id : string;
}.

(** A row of [payment_transactions], column by column. *)
Record PaymentTransaction : Type := {
  id : Z;
  transaction_id : string;
  gateway_id : string;
  integration_id : string;
  external_transaction_id : json;
  reference : json;
  description : json;
  amount : Z;
  currency : string;
  payment_method : json;
  payment_channel : json;
  customer_id : json;
  customer_email : json;
  customer_phone : json;
  customer_name : json;
  status : json;
  gateway_status : json;
  failure_reason : json;
  initiated_at : option datetime;
  processed_at : option datetime;
  completed_at : option datetime;
  response_time : option Z;
  gateway_response : json;
  callback_data : json;
  gateway_fee : option Z;
  platform_fee : option Z;
  total_fees : option Z;
  net_amount : option Z;
  country_code : json;
  mobile_network : json;
  bank_code : json;
  transaction_metadata : json;
  ip_address : json;
  user_agent : json;
  created_at : option datetime;
  updated_at : option datetime;
}.

(** The keyword arguments [create_transaction] passes to the model's
    constructor.  [metadata=...] names no column of the model (the column
    is [transaction_metadata]), so it reaches no row and is left out. *)
Record PaymentTransactionArgs : Type := {
  arg_transaction_id : string;
  arg_gateway_id : string;
  arg_integration_id : string;
  arg_reference : json;
  arg_description : json;
  arg_amount : json;
  arg_currency : string;
  arg_payment_method : json;
  arg_payment_channel : json;
  arg_customer_id : json;
  arg_customer_email : json;
  arg_customer_phone : json;
  arg_customer_name : json;
  arg_country_code : json;
  arg_mobile_network : json;
  arg_bank_code : json;
  arg_ip_address : json;
  arg_user_agent : json;
  arg_status : json;
}.

(** The INSERT of one transaction: the values bound to the columns, with
    the column defaults for what the constructor left unset.  [new_id] is
    the primary key the table assigns and the three times are the
    [default=datetime.utcnow] readings of [initiated_at], [created_at] and
    [updated_at]. *)
Definition insert_row (new_id : Z) (at_initiated at_created at_updated : datetime)
    (args : PaymentTransactionArgs) : result PaymentTransaction :=
  result_bind (result_bind (text_bind (arg_reference args)) not_null) (fun reference' =>
  result_bind (text_bind (arg_description args)) (fun description' =>
  result_bind (numeric_bind (arg_amount args)) (fun amount' =>
  result_bind (result_bind (text_bind (arg_payment_method args)) not_null) (fun payment_method' =>
  result_bind (text_bind (arg_payment_channel args)) (fun payment_channel' =>
  result_bind (text_bind (arg_customer_id args)) (fun customer_id' =>
  result_bind (text_bind (arg_customer_email args)) (fun customer_email' =>
  result_bind (text_bind (arg_customer_phone args)) (fun customer_phone' =>
  result_bind (text_bind (arg_customer_name args)) (fun customer_name' =>
  result_bind (result_bind (text_bind (arg_country_code args)) not_null) (fun country_code' =>
  result_bind (text_bind (arg_mobile_network args)) (fun mobile_network' =>
  result_bind (text_bind (arg_bank_code args)) (fun bank_code' =>
  result_bind (text_bind (arg_ip_address args)) (fun ip_address' =>
  result_bind (text_bind (arg_user_agent args)) (fun user_agent' =>
  result_bind (text_bind (arg_status args)) (fun status' =>
  match amount' with
  | None => Raise IntegrityError
  | Some hundredths =>
      Ok {| id := new_id;
            transaction_id := arg_transaction_id args;
            gateway_id := arg_gateway_id args;
            integration_id := arg_integration_id args;
            external_transaction_id := JNull;
            reference := reference';
            description := description';
            amount := hundredths;
            currency := arg_currency args;
            payment_method := payment_method';
            payment_channel := payment_channel';
            customer_id := customer_id';
            customer_email := customer_email';
            customer_phone := customer_phone';
            customer_name := customer_name';
            status := status';
            gateway_status := JNull;
            failure_reason := JNull;
            initiated_at := Some at_initiated;
            processed_at := None;
            completed_at := None;
            response_time := None;
            gateway_response := JNull;
            callback_data := JNull;
            gateway_fee := Some 0;
            platform_fee := Some 0;
            total_fees := Some 0;
            net_amount := None;
            country_code := country_code';
            mobile_network := mobile_network';
            bank_code := bank_code';
            transaction_metadata := JNull;
            ip_address := ip_address';
            user_agent := user_agent';
            created_at := Some at_created;
            updated_at := Some at_updated |}
  end))))))))))))))).

(** [x.isoformat() if x else None] keeps the instant; the embedding
    returns it as it is. *)
Record TransactionDict : Type := {
  d_id : Z;
  d_transaction_id : string;
  d_gateway_id : string;
  d_integration_id : string;
  d_external_transaction_id : json;
  d_reference : json;
  d_description : json;
  d_amount : pynum;
  d_currency : string;
  d_payment_method : json;
  d_payment_channel : json;
  d_status : json;
  d_gateway_status : json;
  d_failure_reason : json;
  d_customer_id : json;
  d_customer_email : json;
  d_customer_phone : json;
  d_customer_name : json;
  d_country_code : json;
  d_mobile_network : json;
  d_bank_code : json;
  d_gateway_fee : pynum;
  d_platform_fee : pynum;
  d_total_fees : pynum;
  d_net_amount : pynum;
  d_response_time : option Z;
  d_initiated_at : option datetime;
  d_processed_at : option datetime;
  d_completed_at : option datetime;
  d_created_at : option datetime;
}.

Definition to_dict (self : PaymentTransaction) : TransactionDict :=
  {| d_id := id self;
     d_transaction_id := transaction_id self;
     d_gateway_id := gateway_id self;
     d_integration_id := integration_id self;
     d_external_transaction_id := external_transaction_id self;
     d_reference := reference self;
     d_description := description self;
     d_amount := float_or_zero (Some (amount self));
     d_currency := currency self;
     d_payment_method := payment_method self;
     d_payment_channel := payment_channel self;
     d_status := status self;
     d_gateway_status := gateway_status self;
     d_failure_reason := failure_reason self;
     d_customer_id := customer_id self;
     d_customer_email := customer_email self;
     d_customer_phone := customer_phone self;
     d_customer_name := customer_name self;
     d_country_code := country_code self;
     d_mobile_network := mobile_network self;
     d_bank_code := bank_code self;
     d_gateway_fee := float_or_zero (gateway_fee self);
     d_platform_fee := float_or_zero (platform_fee self);
     d_total_fees := float_or_zero (total_fees self);
     d_net_amount := float_or_zero (net_amount self);
     d_response_time := response_time self;
     d_initiated_at := initiated_at self;
     d_processed_at := processed_at self;
     d_completed_at := completed_at self;
     d_created_at := created_at self |}.

End African.

(** ** Models of [models/tier1_critical_platforms.py] *)

Module Tier1.

(** A row of [tier1_transactions].  The three [platform_*_data] columns
    hold the text [json.dumps] prints; the embedding keeps the value that
    was printed, and [None] for SQL [NULL]. *)
Record Tier1Transaction : Type := {
  id : Z;
  transaction_id : string;
  platform : json;
  platform_integration_id : json;
  external_transaction_id : json;
  reference : json;
  description : json;
  amount : Z;
  currency : json;
  payment_method : json;
  payment_channel : json;
  customer_id : json;
  customer_email : json;
  customer_phone : json;
  customer_name : json;
  platform_request_data : option json;
  platform_response_data : option json;
  platform_callback_data : option json;
  status : json;
  platform_status : json;
  failure_reason : json;
  initiated_at : option datetime;
  processed_at : option datetime;
  completed_at : option datetime;
  response_time : option Z;
  platform_fee : option Z;
  gateway_fee : option Z;
  total_fees : option Z;
  net_amount : option Z;
  country_code : json;
  mobile_network : json;
  bank_code : json;
  ip_address : json;
  user_agent : json;
  created_at : option datetime;
  updated_at : option datetime;
}.

(** The keyword arguments of [create_tier1_transaction]'s constructor
    call.  No [status] is passed: the column default applies. *)
Record Tier1TransactionArgs : Type := {
  arg_transaction_id : string;
  arg_platform : json;
  arg_platform_integration_id : json;
  arg_external_transaction_id : json;
  arg_reference : json;
  arg_description : json;
  arg_amount : json;
  arg_currency : json;
  arg_payment_method : json;
  arg_payment_channel : json;
  arg_customer_id : json;
  arg_customer_email : json;
  arg_customer_phone : json;
  arg_customer_name : json;
  arg_country_code : json;
  arg_mobile_network : json;
  arg_bank_code : json;
  arg_platform_request_data : json;
  arg_ip_address : json;
  arg_user_agent : json;
}.

(** [status = db.Column(db.String(20), default='Pending')] *)
Definition status_default : json := JStr "Pending".

Definition insert_row (new_id : Z) (at_initiated at_created at_updated : datetime)
    (args : Tier1TransactionArgs) : result Tier1Transaction :=
  result_bind (result_bind (text_bind (arg_platform args)) not_null) (fun platform' =>
  result_bind (result_bind (text_bind (arg_platform_integration_id args)) not_null)
    (fun platform_integration_id' =>
  result_bind (text_bind (arg_external_transaction_id args)) (fun external_transaction_id' =>
  result_bind (result_bind (text_bind (arg_reference args)) not_null) (fun reference' =>
  result_bind (text_bind (arg_description args)) (fun description' =>
  result_bind (numeric_bind (arg_amount args)) (fun amount' =>
  result_bind (result_bind (text_bind (arg_currency args)) not_null) (fun currency' =>
  result_bind (result_bind (text_bind (arg_payment_method args)) not_null) (fun payment_method' =>
  result_bind (text_bind (arg_payment_channel args)) (fun payment_channel' =>
  result_bind (text_bind (arg_customer_id args)) (fun customer_id' =>
  result_bind (text_bind (arg_customer_email args)) (fun customer_email' =>
  result_bind (text_bind (arg_customer_phone args)) (fun customer_phone' =>
  result_bind (text_bind (arg_customer_name args)) (fun customer_name' =>
  result_bind (result_bind (text_bind (arg_country_code args)) not_null) (fun country_code' =>
  result_bind (text_bind (arg_mobile_network args)) (fun mobile_network' =>
  result_bind (text_bind (arg_bank_code args)) (fun bank_code' =>
  result_bind (text_bind (arg_ip_address args)) (fun ip_address' =>
  result_bind (text_bind (arg_user_agent args)) (fun user_agent' =>
  match amount' with
  | None => Raise IntegrityError
  | Some hundredths =>
      Ok {| id := new_id;
            transaction_id := arg_transaction_id args;
            platform := platform';
            platform_integration_id := platform_integration_id';
            external_transaction_id := external_transaction_id';
            reference := reference';
            description := description';
            amount := hundredths;
            currency := currency';
            payment_method := payment_method';
            payment_channel := payment_channel';
            customer_id := customer_id';
            customer_email := customer_email';
            customer_phone := customer_phone';
            customer_name := customer_name';
            platform_request_data := Some (arg_platform_request_data args);
            platform_response_data := None;
            platform_callback_data := None;
            status := status_default;
            platform_status := JNull;
            failure_reason := JNull;
            initiated_at := Some at_initiated;
            processed_at := None;
            completed_at := None;
            response_time := None;
            platform_fee := Some 0;
            gateway_fee := Some 0;
            total_fees := Some 0;
            net_amount := None;
            country_code := country_code';
            mobile_network := mobile_network';
            bank_code := bank_code';
            ip_address := ip_address';
            user_agent := user_agent';
            created_at := Some at_created;
            updated_at := Some at_updated |}
  end)))))))))))))))))).

Record TransactionDict : Type := {
  d_id : Z;
  d_transaction_id : string;
  d_platform : json;
  d_platform_integration_id : json;
  d_external_transaction_id : json;
  d_reference : json;
  d_description : json;
  d_amount : pynum;
  d_currency : json;
  d_payment_method : json;
  d_payment_channel : json;
  d_customer_id : json;
  d_customer_email : json;
  d_customer_phone : json;
  d_customer_name : json;
  d_status : json;
  d_platform_status : json;
  d_failure_reason : json;
  d_country_code : json;
  d_mobile_network : json;
  d_bank_code : json;
  d_platform_fee : pynum;
  d_gateway_fee : pynum;
  d_total_fees : pynum;
  d_net_amount : pynum;
  d_response_time : option Z;
  d_initiated_at : option datetime;
  d_processed_at : option datetime;
  d_completed_at : option datetime;
  d_created_at : option datetime;
}.

Definition to_dict (self : Tier1Transaction) : TransactionDict :=
  {| d_id := id self;
     d_transaction_id := transaction_id self;
     d_platform := platform self;
     d_platform_integration_id := platform_integration_id self;
     d_external_transaction_id := external_transaction_id self;
     d_reference := reference self;
     d_description := description self;
     d_amount := float_or_zero (Some (amount self));
     d_currency := currency self;
     d_payment_method := payment_method self;
     d_payment_channel := payment_channel self;
     d_customer_id := customer_id self;
     d_customer_email := customer_email self;
     d_customer_phone := customer_phone self;
     d_customer_name := customer_name self;
     d_status := status self;
     d_platform_status := platform_status self;
     d_failure_reason := failure_reason self;
     d_country_code := country_code self;
     d_mobile_network := mobile_network self;
     d_bank_code := bank_code self;
     d_platform_fee := float_or_zero (platform_fee self);
     d_gateway_fee := float_or_zero (gateway_fee self);
     d_total_fees := float_or_zero (total_fees self);
     d_net_amount := float_or_zero (net_amount self);
     d_response_time := response_time self;
     d_initiated_at := initiated_at self;
     d_processed_at := processed_at self;
     d_completed_at := completed_at self;
     d_created_at := created_at self |}.

End Tier1.

(** ** Models of [models/finance_models.py] *)

Module Finance.

Record FinanceEntity : Type := {
  id : Z;
  name : json;
  description : json;
  traditional_name : json;
  local_language : json;
  community_approval : json;
  traditional_authority_endorsement : json;
  cultural_significance : json;
  mobile_optimized : json;
  offline_sync_enabled : json;
  mobile_money_supported : json;
  created_at : option datetime;
  updated_at : option datetime;
}.

End Finance.

(** ** The database and the world a handler runs in *)

Record DB : Type := {
  gateways : list African.AfricanPaymentGateway;
  integrations : list African.PaymentGatewayIntegration;
  payment_transactions : list African.PaymentTransaction;
  tier1_transactions : list Tier1.Tier1Transaction;
  finance_entities : list Finance.FinanceEntity;
}.

Definition with_payment_transactions (rows : list African.PaymentTransaction) (d : DB) : DB :=
  {| gateways := gateways d;
     integrations := integrations d;
     payment_transactions := rows;
     tier1_transactions := tier1_transactions d;
     finance_entities := finance_entities d |}.

Definition with_tier1_transactions (rows : list Tier1.Tier1Transaction) (d : DB) : DB :=
  {| gateways := gateways d;
     integrations := integrations d;
     payment_transactions := payment_transactions d;
     tier1_transactions := rows;
     finance_entities := finance_entities d |}.

Definition with_finance_entities (rows : list Finance.FinanceEntity) (d : DB) : DB :=
  {| gateways := gateways d;
     integrations := integrations d;
     payment_transactions := payment_transactions d;
     tier1_transactions := tier1_transactions d;
     finance_entities := rows |}.

(** The committed database, and the two sources a handler reads without
    owning them: the system clock and the UUID generator, each with the
    number of readings taken so far. *)
Record World : Type := {
  db : DB;
  clock : nat -> datetime;
  clock_reads : nat;
  uuid_source : nat -> string;
  uuid_draws : nat;
}.

Definition with_db (d : DB) (w : World) : World :=
  {| db := d;
     clock := clock w;
     clock_reads := clock_reads w;
     uuid_source := uuid_source w;
     uuid_draws := uuid_draws w |}.

(** A handler step: it runs in a world, yields a value or raises, and
    leaves a world. *)
Definition M (A : Type) : Type := World -> result A * World.

Definition ret {A : Type} (a : A) : M A := fun w => (Ok a, w).

Definition raise {A : Type} (e : exn) : M A := fun w => (Raise e, w).

Definition bind {A B : Type} (m : M A) (k : A -> M B) : M B :=
  fun w =>
    match m w with
    | (Ok a, w') => k a w'
    | (Raise e, w') => (Raise e, w')
    end.

Definition lift {A : Type} (r : result A) : M A := fun w => (r, w).

Declare Scope handler_scope.
Delimit Scope handler_scope with handler.
Notation "'let*' x := m 'in' k" := (bind m (fun x => k))
  (at level 10, x name, m at level 100, k at level 200) : handler_scope.
Local Open Scope handler_scope.

(** [try: body / except Exception: db.session.rollback(); handler].  A
    handler writes to the database only in its commit, and a commit that
    raises has written nothing, so the rollback has nothing to undo. *)
Definition try_except {A : Type} (body : M A) (handler : exn -> M A) : M A :=
  fun w =>
    match body w with
    | (Ok a, w') => (Ok a, w')
    | (Raise e, w') => handler e w'
    end.

(** [datetime.utcnow()] *)
Definition utcnow : M datetime :=
  fun w =>
    (Ok (clock w (clock_reads w)),
     {| db := db w;
        clock := clock w;
        clock_reads := S (clock_reads w);
        uuid_source := uuid_source w;
        uuid_draws := uuid_draws w |}).

(** [uuid.uuid4().hex] *)
Definition uuid4_hex : M string :=
  fun w =>
    (Ok (uuid_source w (uuid_draws w)),
     {| db := db w;
        clock := clock w;
        clock_reads := clock_reads w;
        uuid_source := uuid_source w;
        uuid_draws := S (uuid_draws w) |}).

(** A SELECT: it reads the committed database. *)
Definition query {A : Type} (select : DB -> A) : M A :=
  fun w => (Ok (select (db w)), w).

(** A successful COMMIT of the session's pending change. *)
Definition commit (change : DB -> DB) : M unit :=
  fun w => (Ok tt, with_db (change (db w)) w).

(** The key an [INTEGER PRIMARY KEY] column gives a new row: one more than
    the largest key in the table. *)
Definition next_id (ids : list Z) : Z := 1 + foldr Z.max 0 ids.

(** A string column compared with a bound parameter in a WHERE clause. *)
Definition column_is (column : string) (param : json) : bool :=
  match param with
  | JStr s => String.eqb column s
  | _ => false
  end.

Definition json_is (column : json) (s : string) : bool := column_is s column.

(** The parameter of a WHERE clause goes through the driver too. *)
Definition bind_param (param : json) : M unit :=
  if sqlite_scalar param then ret tt else raise InterfaceError.

(** ** Handlers of [routes/african_payment_framework.py] *)

Module AfricanRoutes.
Import African.

(** The transaction counts, the success rate, the volume and the gateway
    counts of the overview.  The per-method and per-country breakdowns and
    the average are further SELECTs over the same rows and are not kept. *)
Record Overview : Type := {
  period_days : Z;
  period_start_date : datetime;
  period_end_date : datetime;
  transactions_total : nat;
  transactions_successful : nat;
  transactions_failed : nat;
  transactions_pending : nat;
  transactions_success_rate : pynum;
  volume_total : pynum;
  gateways_total : nat;
  gateways_active : nat;
}.

Inductive Body : Type :=
  | BError (error : string)
  | BTransaction (message : string) (data : TransactionDict)
  | BTransactions (data : list TransactionDict)
  | BOverview (data : Overview).

Record Response : Type := {
  code : Z;
  body : Body;
}.

(** The HTTP status a client sees; an exception that left a handler
    would be Flask's 500. *)
Definition status_code (answer : result Response) : Z :=
  match answer with
  | Ok response => code response
  | Raise _ => 500
  end.

(** What Flask hands [create_transaction] besides the JSON body. *)
Record Peer : Type := {
  remote_addr : json;
  user_agent_header : json;
}.

Definition required_fields : list string :=
  ["integration_id"; "amount"; "currency"; "payment_method"; "reference"].

(** [PaymentGatewayIntegration.query.filter_by(integration_id=...).first()] *)
Definition first_integration (param : json) : M (option PaymentGatewayIntegration) :=
  let* _ := bind_param param in
  query (fun d => find (fun i => column_is (int_integration_id i) param) (integrations d)).

(** [integration.gateway.country_code]: the backref loads the gateway of
    the integration; without one the attribute access is on [None]. *)
Definition integration_gateway_country_code (integration : PaymentGatewayIntegration)
    : M string :=
  let* gateway :=
    query (fun d =>
      find (fun g => String.eqb (gw_gateway_id g) (int_gateway_id integration)) (gateways d)) in
  match gateway with
  | Some g => ret (gw_country_code g)
  | None => raise AttributeError
  end.

(** [data['currency'].upper()] *)
Definition currency_upper (v : json) : M string :=
  match v with
  | JStr s => ret (upper s)
  | _ => raise AttributeError
  end.

(** [db.session.add(transaction); db.session.commit()] *)
Definition add_and_commit (args : PaymentTransactionArgs) : M PaymentTransaction :=
  let* rows := query payment_transactions in
  let* at_initiated := utcnow in
  let* at_created := utcnow in
  let* at_updated := utcnow in
  let* row := lift (insert_row (next_id (map id rows)) at_initiated at_created at_updated args) in
  if existsb (fun t => String.eqb (transaction_id t) (transaction_id row)) rows
  then raise IntegrityError
  else
    let* _ := commit (fun d => with_payment_transactions (payment_transactions d ++ [row]) d) in
    ret row.

Definition create_transaction (peer : Peer) (data : gmap string json) : M Response :=
  try_except
    (match find (fun field => negb (dict_has data field)) required_fields with
     | Some field =>
         ret {| code := 400; body := BError ("Missing required field: " +:+ field) |}
     | None =>
         let* integration := first_integration (dict_get data "integration_id") in
         match integration with
         | None => ret {| code := 404; body := BError "Integration not found" |}
         | Some integration =>
             let* hex := uuid4_hex in
             let transaction_id :=
               "txn_" +:+ int_gateway_id integration +:+ "_" +:+ substring 0 12 hex in
             let* currency := currency_upper (dict_get data "currency") in
             let* gateway_country_code := integration_gateway_country_code integration in
             let* transaction :=
               add_and_commit
                 {| arg_transaction_id := transaction_id;
                    arg_gateway_id := int_gateway_id integration;
                    arg_integration_id := int_integration_id integration;
                    arg_reference := dict_get data "reference";
                    arg_description := dict_get data "description";
                    arg_amount := dict_get data "amount";
                    arg_currency := currency;
                    arg_payment_method := dict_get data "payment_method";
                    arg_payment_channel := dict_get data "payment_channel";
                    arg_customer_id := dict_get data "customer_id";
                    arg_customer_email := dict_get data "customer_email";
                    arg_customer_phone := dict_get data "customer_phone";
                    arg_customer_name := dict_get data "customer_name";
                    arg_country_code :=
                      default (JStr gateway_country_code) (data !! "country_code");
                    arg_mobile_network := dict_get data "mobile_network";
                    arg_bank_code := dict_get data "bank_code";
                    arg_ip_address := remote_addr peer;
                    arg_user_agent := user_agent_header peer;
                    arg_status := JStr "Pending" |} in
             ret {| code := 201;
                    body := BTransaction "Transaction created successfully"
                              (to_dict transaction) |}
         end
     end)
    (fun _ => ret {| code := 500; body := BError "Failed to create transaction" |}).

(** The query string of [/analytics/overview]; [days] falls back to 30. *)
Record OverviewArgs : Type := {
  arg_days : option Z;
  arg_country : option string;
  arg_gateway : option string;
}.

(** [if s:] on an optional query parameter. *)
Definition given (s : option string) : option string :=
  match s with
  | Some "" => None
  | other => other
  end.

Definition microseconds_per_day : Z := 86400000000.

(** [column >= start_date]; a [NULL] column satisfies no comparison. *)
Definition since (start_date : datetime) (column : option datetime) : bool :=
  match column with
  | Some at_ => start_date <=? at_
  | None => false
  end.

(** The base query of the overview, with its optional filters. *)
Definition overview_query (start_date : datetime) (args : OverviewArgs)
    (rows : list PaymentTransaction) : list PaymentTransaction :=
  let in_period := List.filter (fun t => since start_date (created_at t)) rows in
  let in_country :=
    match given (arg_country args) with
    | Some c => List.filter (fun t => json_is (country_code t) (upper c)) in_period
    | None => in_period
    end in
  match given (arg_gateway args) with
  | Some g => List.filter (fun t => String.eqb (gateway_id t) g) in_country
  | None => in_country
  end.

Definition count_status (s : string) (rows : list PaymentTransaction) : nat :=
  length (List.filter (fun t => json_is (status t) s) rows).

(** [(successful / total * 100) if total > 0 else 0] *)
Definition success_rate (successful total : nat) : pynum :=
  if (0 <? total)%nat
  then PyFloat (PrimFloat.mul
                  (PrimFloat.div (float_of_Z (Z.of_nat successful))
                                 (float_of_Z (Z.of_nat total)))
                  (float_of_Z 100))
  else PyInt 0.

(** [func.sum(PaymentTransaction.amount)] over the given rows: the
    decimal sum, in hundredths. *)
Definition sum_amount (rows : list PaymentTransaction) : Z :=
  foldr (fun t acc => amount t + acc) 0 rows.

Definition get_analytics_overview (args : OverviewArgs) : M Response :=
  try_except
    (let days := default 30 (arg_days args) in
     let* end_date := utcnow in
     let start_date := end_date - days * microseconds_per_day in
     let* selected := query (fun d => overview_query start_date args (payment_transactions d)) in
     let total_transactions := length selected in
     let successful_transactions := count_status "Success" selected in
     let failed_transactions := count_status "Failed" selected in
     let pending_transactions := count_status "Pending" selected in
     let* total_volume :=
       query (fun d =>
         let ids := map id (List.filter (fun t => json_is (status t) "Success") selected) in
         sum_amount (List.filter (fun t => existsb (Z.eqb (id t)) ids)
                                 (payment_transactions d))) in
     let* total_gateways := query (fun d => length (gateways d)) in
     let* active_gateways :=
       query (fun d => length (List.filter (fun g => json_is (gw_status g) "Active")
                                           (gateways d))) in
     ret {| code := 200;
            body := BOverview
              {| period_days := days;
                 period_start_date := start_date;
                 period_end_date := end_date;
                 transactions_total := total_transactions;
                 transactions_successful := successful_transactions;
                 transactions_failed := failed_transactions;
                 transactions_pending := pending_transactions;
                 transactions_success_rate :=
                   success_rate successful_transactions total_transactions;
                 volume_total := PyFloat (float_of_decimal total_volume);
                 gateways_total := total_gateways;
                 gateways_active := active_gateways |} |})
    (fun _ => ret {| code := 500; body := BError "Failed to fetch analytics overview" |}).

(** The filters of [GET /transactions]; a date that does not parse
    answers 400.  The ordering and the paging shape the response only and
    are not kept: the body lists the rows the filters select. *)
Record ListArgs : Type := {
  by_integration_id : option string;
  by_gateway_id : option string;
  by_status : option string;
  by_payment_method : option string;
  by_country_code : option string;
  by_start_date : option (option datetime);
  by_end_date : option (option datetime);
}.

Definition where_ (param : option string) (holds : string -> PaymentTransaction -> bool)
    (rows : list PaymentTransaction) : list PaymentTransaction :=
  match given param with
  | Some p => List.filter (holds p) rows
  | None => rows
  end.

Definition until (end_date : datetime) (column : option datetime) : bool :=
  match column with
  | Some at_ => at_ <=? end_date
  | None => false
  end.

Definition get_transactions (args : ListArgs) : M Response :=
  try_except
    (let* rows := query payment_transactions in
     let rows := where_ (by_integration_id args)
                   (fun p t => String.eqb (integration_id t) p) rows in
     let rows := where_ (by_gateway_id args) (fun p t => String.eqb (gateway_id t) p) rows in
     let rows := where_ (by_status args) (fun p t => json_is (status t) p) rows in
     let rows := where_ (by_payment_method args)
                   (fun p t => json_is (payment_method t) p) rows in
     let rows := where_ (by_country_code args)
                   (fun p t => json_is (country_code t) (upper p)) rows in
     match by_start_date args with
     | Some None =>
         ret {| code := 400; body := BError "Invalid start_date format. Use ISO format." |}
     | start =>
         let rows := match start with
                     | Some (Some start_dt) =>
                         List.filter (fun t => since start_dt (created_at t)) rows
                     | _ => rows
                     end in
         match by_end_date args with
         | Some None =>
             ret {| code := 400; body := BError "Invalid end_date format. Use ISO format." |}
         | Some (Some end_dt) =>
             ret {| code := 200;
                    body := BTransactions
                      (map to_dict (List.filter (fun t => until end_dt (created_at t)) rows)) |}
         | None => ret {| code := 200; body := BTransactions (map to_dict rows) |}
         end
     end)
    (fun _ => ret {| code := 500; body := BError "Failed to fetch transactions" |}).




End AfricanRoutes.

(** ** Handlers of [routes/tier1_critical_platforms.py] *)

Module Tier1Routes.
Import Tier1.

Record PlatformMetrics : Type := {
  total_transactions : nat;
  successful_transactions : nat;
  failed_transactions : nat;
  success_rate : pynum;
  total_volume : pynum;
  average_transaction_value : pynum;
}.

(** The overview, overall and per platform; [top_performing_platform] is
    derived from the per-platform success rates and is not kept. *)
Record Overview : Type := {
  period_days : Z;
  overall_metrics : PlatformMetrics;
  platform_analytics : list (string * PlatformMetrics);
}.

(** [BFailure] is [{'error': str(e)}]; the text of the exception is not
    kept. *)
Inductive Body : Type :=
  | BError (error : string)
  | BFailure
  | BTransaction (data : TransactionDict)
  | BMessage (message : string) (transaction : TransactionDict)
  | BTransactions (transactions : list TransactionDict) (total : nat)
  | BOverview (data : Overview).

Record Response : Type := {
  code : Z;
  body : Body;
}.

Definition status_code (answer : result Response) : Z :=
  match answer with
  | Ok response => code response
  | Raise _ => 500
  end.

Definition required_fields : list string :=
  ["platform"; "platform_integration_id"; "amount"; "currency"; "payment_method";
   "country_code"].

(** [db.session.add(transaction); db.session.commit()] *)
Definition add_and_commit (args : Tier1TransactionArgs) : M Tier1Transaction :=
  let* rows := query tier1_transactions in
  let* at_initiated := utcnow in
  let* at_created := utcnow in
  let* at_updated := utcnow in
  let* row := lift (insert_row (next_id (map id rows)) at_initiated at_created at_updated args) in
  if existsb (fun t => String.eqb (transaction_id t) (transaction_id row)) rows
  then raise IntegrityError
  else
    let* _ := commit (fun d => with_tier1_transactions (tier1_transactions d ++ [row]) d) in
    ret row.

Definition create_tier1_transaction (data : gmap string json) : M Response :=
  try_except
    (match find (fun field => negb (dict_has data field)) required_fields with
     | Some field => ret {| code := 400; body := BError (field +:+ " is required") |}
     | None =>
         let* hex := uuid4_hex in
         let* reference_hex := uuid4_hex in
         let* transaction :=
           add_and_commit
             {| arg_transaction_id := "tier1_" +:+ substring 0 16 hex;
                arg_platform := dict_get data "platform";
                arg_platform_integration_id := dict_get data "platform_integration_id";
                arg_external_transaction_id := dict_get data "external_transaction_id";
                arg_reference :=
                  default (JStr ("ref_" +:+ substring 0 8 reference_hex))
                          (data !! "reference");
                arg_description := dict_get data "description";
                arg_amount := dict_get data "amount";
                arg_currency := dict_get data "currency";
                arg_payment_method := dict_get data "payment_method";
                arg_payment_channel := dict_get data "payment_channel";
                arg_customer_id := dict_get data "customer_id";
                arg_customer_email := dict_get data "customer_email";
                arg_customer_phone := dict_get data "customer_phone";
                arg_customer_name := dict_get data "customer_name";
                arg_country_code := dict_get data "country_code";
                arg_mobile_network := dict_get data "mobile_network";
                arg_bank_code := dict_get data "bank_code";
                arg_platform_request_data :=
                  default (JObj []) (data !! "platform_request_data");
                arg_ip_address := dict_get data "ip_address";
                arg_user_agent := dict_get data "user_agent" |} in
         ret {| code := 201;
                body := BMessage "Tier 1 transaction created successfully"
                          (to_dict transaction) |}
     end)
    (fun _ => ret {| code := 500; body := BFailure |}).

(** [Tier1Transaction.query.filter_by(transaction_id=transaction_id).first()] *)
Definition first_transaction (wanted : string) : M (option Tier1Transaction) :=
  query (fun d => find (fun t => String.eqb (transaction_id t) wanted) (tier1_transactions d)).

Definition get_tier1_transaction (wanted : string) : M Response :=
  try_except
    (let* transaction := first_transaction wanted in
     match transaction with
     | None => ret {| code := 404; body := BError "Transaction not found" |}
     | Some transaction => ret {| code := 200; body := BTransaction (to_dict transaction) |}
     end)
    (fun _ => ret {| code := 500; body := BFailure |}).

(** [int((completed_at - initiated_at).total_seconds() * 1000)]:
    [total_seconds] divides the microseconds by [10**6] in floating point. *)
Definition response_time_ms (initiated completed : datetime) : M Z :=
  let total_seconds := PrimFloat.div (float_of_Z (completed - initiated))
                                     (float_of_Z 1000000) in
  match int_of_float (PrimFloat.mul total_seconds (float_of_Z 1000)) with
  | Some ms => ret ms
  | None => raise ValueError
  end.

(** [not x] on a nullable [DateTime] attribute. *)
Definition unset (x : option datetime) : bool :=
  match x with
  | Some _ => false
  | None => true
  end.

(** The timing block of [update_transaction_status]: the values of
    [processed_at], [completed_at] and [response_time] it leaves on the
    transaction. *)
Definition update_timing (data : gmap string json) (transaction : Tier1Transaction)
    : M (option datetime * option datetime * option Z) :=
  let unchanged :=
    (processed_at transaction, completed_at transaction, response_time transaction) in
  if dict_has data "status" then
    let new_status := dict_get data "status" in
    if json_is new_status "Processing" && unset (processed_at transaction) then
      let* now := utcnow in
      ret (Some now, completed_at transaction, response_time transaction)
    else if (json_is new_status "Success" || json_is new_status "Failed"
             || json_is new_status "Cancelled")
            && unset (completed_at transaction) then
      let* now := utcnow in
      match initiated_at transaction with
      | Some initiated =>
          let* ms := response_time_ms initiated now in
          ret (processed_at transaction, Some now, Some ms)
      | None => ret (processed_at transaction, Some now, response_time transaction)
      end
    else ret unchanged
  else ret unchanged.

(** One turn of [for field in updatable_fields: if field in data:
    setattr(transaction, field, data[field])], for a text column and for
    a [Numeric] one, and likewise [transaction.status = data['status']].
    The assigned value meets the driver when the commit binds it. *)
Definition assigned (data : gmap string json) (field : string) (current : json)
    : result json :=
  match data !! field with
  | Some v => text_bind v
  | None => Ok current
  end.

Definition assigned_numeric (data : gmap string json) (field : string)
    (current : option Z) : result (option Z) :=
  match data !! field with
  | Some v => numeric_bind v
  | None => Ok current
  end.

(** [if field in data: transaction.field = json.dumps(data[field])] *)
Definition dumped (data : gmap string json) (field : string) (current : option json)
    : option json :=
  match data !! field with
  | Some v => Some v
  | None => current
  end.

(** The transaction as the handler leaves it for the commit: the status,
    the timing the block above computed, the updatable fields, the two
    platform payloads and [updated_at]. *)
Definition changed_transaction (data : gmap string json) (transaction : Tier1Transaction)
    (timing : option datetime * option datetime * option Z) (now : datetime)
    : result Tier1Transaction :=
  result_bind (assigned data "status" (status transaction)) (fun new_status =>
  result_bind (assigned data "platform_status" (platform_status transaction))
    (fun new_platform_status =>
  result_bind (assigned data "external_transaction_id" (external_transaction_id transaction))
    (fun new_external_transaction_id =>
  result_bind (assigned data "failure_reason" (failure_reason transaction))
    (fun new_failure_reason =>
  result_bind (assigned_numeric data "platform_fee" (platform_fee transaction))
    (fun new_platform_fee =>
  result_bind (assigned_numeric data "gateway_fee" (gateway_fee transaction))
    (fun new_gateway_fee =>
  result_bind (assigned_numeric data "total_fees" (total_fees transaction))
    (fun new_total_fees =>
  result_bind (assigned_numeric data "net_amount" (net_amount transaction))
    (fun new_net_amount =>
  Ok {| id := id transaction;
        transaction_id := transaction_id transaction;
        platform := platform transaction;
        platform_integration_id := platform_integration_id transaction;
        external_transaction_id := new_external_transaction_id;
        reference := reference transaction;
        description := description transaction;
        amount := amount transaction;
        currency := currency transaction;
        payment_method := payment_method transaction;
        payment_channel := payment_channel transaction;
        customer_id := customer_id transaction;
        customer_email := customer_email transaction;
        customer_phone := customer_phone transaction;
        customer_name := customer_name transaction;
        platform_request_data := platform_request_data transaction;
        platform_response_data :=
          dumped data "platform_response_data" (platform_response_data transaction);
        platform_callback_data :=
          dumped data "platform_callback_data" (platform_callback_data transaction);
        status := new_status;
        platform_status := new_platform_status;
        failure_reason := new_failure_reason;
        initiated_at := initiated_at transaction;
        processed_at := timing.1.1;
        completed_at := timing.1.2;
        response_time := timing.2;
        platform_fee := new_platform_fee;
        gateway_fee := new_gateway_fee;
        total_fees := new_total_fees;
        net_amount := new_net_amount;
        country_code := country_code transaction;
        mobile_network := mobile_network transaction;
        bank_code := bank_code transaction;
        ip_address := ip_address transaction;
        user_agent := user_agent transaction;
        created_at := created_at transaction;
        updated_at := Some now |})))))))).

(** The UPDATE a commit issues for a loaded row: by primary key. *)
Definition update_row (changed : Tier1Transaction) (rows : list Tier1Transaction)
    : list Tier1Transaction :=
  map (fun t => if id t =? id changed then changed else t) rows.

Definition update_transaction_status (wanted : string) (data : gmap string json)
    : M Response :=
  try_except
    (let* found := first_transaction wanted in
     match found with
     | None => ret {| code := 404; body := BError "Transaction not found" |}
     | Some transaction =>
         let* timing := update_timing data transaction in
         let* now := utcnow in
         let* changed := lift (changed_transaction data transaction timing now) in
         let* _ :=
           commit (fun d =>
             with_tier1_transactions (update_row changed (tier1_transactions d)) d) in
         ret {| code := 200;
                body := BMessage "Transaction status updated successfully"
                          (to_dict changed) |}
     end)
    (fun _ => ret {| code := 500; body := BFailure |}).

Definition platforms : list string :=
  ["mpesa"; "mtn_momo"; "paystack"; "flutterwave"; "hubtel"].

Definition since (start_date : datetime) (column : option datetime) : bool :=
  match column with
  | Some at_ => start_date <=? at_
  | None => false
  end.

(** [(successful / total * 100) if total > 0 else 0] *)
Definition rate (successful total : nat) : pynum :=
  if (0 <? total)%nat
  then PyFloat (PrimFloat.mul
                  (PrimFloat.div (float_of_Z (Z.of_nat successful))
                                 (float_of_Z (Z.of_nat total)))
                  (float_of_Z 100))
  else PyInt 0.

(** [sum([float(t.amount) for t in transactions if t.amount])] *)
Definition volume (rows : list Tier1Transaction) : pynum :=
  py_sum (map (fun t => float_of_decimal (amount t))
              (List.filter (fun t => negb (amount t =? 0)) rows)).

Definition metrics (rows : list Tier1Transaction) : PlatformMetrics :=
  let total := length rows in
  let successful := length (List.filter (fun t => json_is (status t) "Success") rows) in
  let total_volume := volume rows in
  {| total_transactions := total;
     successful_transactions := successful;
     failed_transactions := (total - successful)%nat;
     success_rate := rate successful total;
     total_volume := total_volume;
     average_transaction_value :=
       if (0 <? total)%nat then py_div total_volume total else PyInt 0 |}.

Definition get_analytics_overview (days : option Z) : M Response :=
  try_except
    (let days := default 30 days in
     let* now := utcnow in
     let start_date := now - days * AfricanRoutes.microseconds_per_day in
     let* platform_analytics :=
       query (fun d =>
         map (fun platform_name =>
                (platform_name,
                 metrics (List.filter
                            (fun t => json_is (platform t) platform_name
                                      && since start_date (created_at t))
                            (tier1_transactions d))))
             platforms) in
     let* all_transactions :=
       query (fun d => List.filter (fun t => since start_date (created_at t))
                                   (tier1_transactions d)) in
     ret {| code := 200;
            body := BOverview
              {| period_days := days;
                 overall_metrics := metrics all_transactions;
                 platform_analytics := platform_analytics |} |})
    (fun _ => ret {| code := 500; body := BFailure |}).

(** The filters of [GET /transactions].  The ordering and the paging shape
    the response only and are not kept. *)
Record ListArgs : Type := {
  by_platform : option string;
  by_status : option string;
  by_user_id : option Z;
}.

(** [f"{platform}_{user_id}"] *)
Definition integration_key (platform_name : option string) (user_id : Z) : string :=
  default "None" platform_name +:+ "_" +:+ pretty user_id.

Definition get_tier1_transactions (args : ListArgs) : M Response :=
  try_except
    (let* rows := query tier1_transactions in
     let rows := match AfricanRoutes.given (by_platform args) with
                 | Some p => List.filter (fun t => json_is (platform t) p) rows
                 | None => rows
                 end in
     let rows := match AfricanRoutes.given (by_status args) with
                 | Some s => List.filter (fun t => json_is (status t) s) rows
                 | None => rows
                 end in
     let rows := match by_user_id args with
                 | Some 0 | None => rows
                 | Some user_id =>
                     List.filter
                       (fun t => json_is (platform_integration_id t)
                                   (integration_key (by_platform args) user_id))
                       rows
                 end in
     ret {| code := 200; body := BTransactions (map to_dict rows) (length rows) |})
    (fun _ => ret {| code := 500; body := BFailure |}).

(** The transaction figures of [get_statistics].  The counts of the five
    platform integration tables, which the embedding does not hold, are not
    kept. *)
Record TransactionStatistics : Type := {
  all_transactions : nat;
  all_successful : nat;
  all_failed : nat;
  all_pending : nat;
}.

Record PlatformBreakdown : Type := {
  platform_transactions : nat;
  platform_successful : nat;
  platform_success_rate : pynum;
}.

Record Statistics : Type := {
  transaction_statistics : TransactionStatistics;
  platform_transaction_breakdown : list (string * PlatformBreakdown);
  overall_success_rate : pynum;
}.

Record StatisticsResponse : Type := {
  statistics_code : Z;
  statistics_body : option Statistics;
}.

(** [Tier1Transaction.query.filter_by(...).count()] *)
Definition count_where (holds : Tier1Transaction -> bool) (rows : list Tier1Transaction)
    : nat :=
  length (List.filter holds rows).

Definition get_statistics : M StatisticsResponse :=
  try_except
    (let* total := query (fun d => length (tier1_transactions d)) in
     let* successful :=
       query (fun d => count_where (fun t => json_is (status t) "Success")
                                   (tier1_transactions d)) in
     let* failed :=
       query (fun d => count_where (fun t => json_is (status t) "Failed")
                                   (tier1_transactions d)) in
     let* pending :=
       query (fun d => count_where (fun t => json_is (status t) "Pending")
                                   (tier1_transactions d)) in
     let* breakdown :=
       query (fun d =>
         map (fun platform_name =>
                let platform_total :=
                  count_where (fun t => json_is (platform t) platform_name)
                              (tier1_transactions d) in
                let platform_ok :=
                  count_where (fun t => json_is (platform t) platform_name
                                        && json_is (status t) "Success")
                              (tier1_transactions d) in
                (platform_name,
                 {| platform_transactions := platform_total;
                    platform_successful := platform_ok;
                    platform_success_rate := rate platform_ok platform_total |}))
             platforms) in
     ret {| statistics_code := 200;
            statistics_body :=
              Some {| transaction_statistics :=
                        {| all_transactions := total;
                           all_successful := successful;
                           all_failed := failed;
                           all_pending := pending |};
                      platform_transaction_breakdown := breakdown;
                      overall_success_rate := rate successful total |} |})
    (fun _ => ret {| statistics_code := 500; statistics_body := None |}).

End Tier1Routes.

(** ** Handlers of [routes/finance_routes.py] *)

Module FinanceRoutes.
Import Finance.

Record Response : Type := {
  code : Z;
  success : bool;
}.

(** [FinanceEntity.query.get_or_404(entity_id)] inside the handler's
    [try]: the 404 it raises is caught with every other exception. *)
Definition get_or_404 (entity_id : Z) : M FinanceEntity :=
  let* found := query (fun d => find (fun e => id e =? entity_id) (finance_entities d)) in
  match found with
  | Some entity => ret entity
  | None => raise NotFound
  end.

Definition delete_entity (entity_id : Z) : M Response :=
  try_except
    (let* entity := get_or_404 entity_id in
     let* _ :=
       commit (fun d =>
         with_finance_entities
           (List.filter (fun e => negb (id e =? id entity)) (finance_entities d)) d) in
     ret {| code := 200; success := true |})
    (fun _ => ret {| code := 400; success := false |}).

End FinanceRoutes.

(** ** The endpoints, as one interface *)

Inductive Request : Type :=
  | GET_transactions (args : AfricanRoutes.ListArgs)
  | POST_transactions (peer : AfricanRoutes.Peer) (data : gmap string json)
  | GET_analytics_overview (args : AfricanRoutes.OverviewArgs)
  | GET_tier1_transactions (args : Tier1Routes.ListArgs)
  | POST_tier1_transactions (data : gmap string json)
  | GET_tier1_transaction (transaction_id : string)
  | PUT_tier1_transaction_status (transaction_id : string) (data : gmap string json)
  | GET_tier1_analytics_overview (days : option Z)
  | DELETE_finance_entity (entity_id : Z).

(** The world a request leaves behind, whatever it answered. *)
Definition serve (request : Request) (w : World) : World :=
  match request with
  | GET_transactions args => (AfricanRoutes.get_transactions args w).2
  | POST_transactions peer data => (AfricanRoutes.create_transaction peer data w).2
  | GET_analytics_overview args => (AfricanRoutes.get_analytics_overview args w).2
  | GET_tier1_transactions args => (Tier1Routes.get_tier1_transactions args w).2
  | POST_tier1_transactions data => (Tier1Routes.create_tier1_transaction data w).2
  | GET_tier1_transaction wanted => (Tier1Routes.get_tier1_transaction wanted w).2
  | PUT_tier1_transaction_status wanted data =>
      (Tier1Routes.update_transaction_status wanted data w).2
  | GET_tier1_analytics_overview days => (Tier1Routes.get_analytics_overview days w).2
  | DELETE_finance_entity entity_id => (FinanceRoutes.delete_entity entity_id w).2
  end.

Definition serve_all (requests : list Request) (w : World) : World :=
  foldl (fun w' request => serve request w') w requests.

(** Deliveries of status updates to one transaction, one after the other. *)
Definition deliver_all (wanted : string) (bodies : list (gmap string json)) (w : World)
    : World :=
  foldl (fun w' data => (Tier1Routes.update_transaction_status wanted data w').2) w bodies.

(** The transaction a lookup by [transaction_id] loads from a world. *)
Definition stored (wanted : string) (w : World) : option Tier1.Tier1Transaction :=
  find (fun t => String.eqb (Tier1.transaction_id t) wanted) (tier1_transactions (db w)).

(** ** Sample worlds and requests

    One gateway [m1] with one integration, a clock that advances a second
    per reading and a UUID generator whose first two draws differ. *)

Module Sample.

Definition catalogue : DB :=
  {| gateways :=
       [ {| African.gw_gateway_id := "m1";
            African.gw_country_code := "KEN";
            African.gw_status := JStr "Active" |} ];
     integrations :=
       [ {| African.int_integration_id := "int_m1"; African.int_gateway_id := "m1" |} ];
     payment_transactions := [];
     tier1_transactions := [];
     finance_entities := [] |}.

Definition world_of (d : DB) : World :=
  {| db := d;
     clock := fun reading => Z.of_nat reading * 1000000;
     clock_reads := 0;
     uuid_source := fun draw =>
       match draw with
       | O => "0123456789abcdef0123456789abcdef"
       | _ => "fedcba9876543210fedcba9876543210"
       end;
     uuid_draws := 0 |}.

Definition empty_world : World := world_of catalogue.

Definition peer : AfricanRoutes.Peer :=
  {| AfricanRoutes.remote_addr := JStr "10.0.0.1";
     AfricanRoutes.user_agent_header := JNull |}.

(** [{integration_id: "int_m1", amount: a, currency: "kes",
     payment_method: "mobile_money", reference: "abc"}] *)
Definition payment_of (hundredths : Z) : gmap string json :=
  {[ "integration_id" := JStr "int_m1";
     "amount" := JNum hundredths;
     "currency" := JStr "kes";
     "payment_method" := JStr "mobile_money";
     "reference" := JStr "abc" ]}.

(** The same payment submitted twice. *)
Definition first_payment : result AfricanRoutes.Response * World :=
  AfricanRoutes.create_transaction peer (payment_of 50000) empty_world.


Definition tier1_payment : gmap string json :=
  {[ "platform" := JStr "mpesa";
     "platform_integration_id" := JStr "mpesa_7";
     "amount" := JNum 50000;
     "currency" := JStr "KES";
     "payment_method" := JStr "mobile_money";
     "country_code" := JStr "KE";
     "reference" := JStr "abc" ]}.

Definition status_is (s : string) : gmap string json := {[ "status" := JStr s ]}.


(** The world after one Tier 1 transaction was created, and the
    [transaction_id] it was given. *)
Definition tier1_world : World :=
  (Tier1Routes.create_tier1_transaction tier1_payment empty_world).2.

Definition tier1_id : string := "tier1_0123456789abcdef".

(** The same world once the transaction has been reported successful. *)
Definition settled_world : World :=
  (Tier1Routes.update_transaction_status tier1_id (status_is "Success") tier1_world).2.

(** A Tier 1 ledger with two transactions, the first reported successful
    and the second still pending. *)
Definition mixed_world : World :=
  (Tier1Routes.update_transaction_status tier1_id (status_is "Success")
     (Tier1Routes.create_tier1_transaction tier1_payment tier1_world).2).2.

End Sample.

(** ** Vocabulary of the properties *)

(** A handler step that leaves the committed database as it found it. *)
Definition reads_only {A : Type} (m : M A) : Prop :=
  forall w, db (m w).2 = db w.

(** The primary keys of the two transaction ledgers; a database [d'] keeps
    the ledgers of [d] when every key of [d] is still there, in place. *)
Definition payment_keys (d : DB) : list Z := map African.id (payment_transactions d).

Definition tier1_keys (d : DB) : list Z := map Tier1.id (tier1_transactions d).

Definition ledger_kept (d d' : DB) : Prop :=
  payment_keys d `prefix_of` payment_keys d' /\ tier1_keys d `prefix_of` tier1_keys d'.

Definition keeps_ledger {A : Type} (m : M A) : Prop :=
  forall w, ledger_kept (db w) (db (m w).2).




(** A transaction with another [updated_at] and nothing else changed. *)
Definition with_updated_at (at_ : option datetime) (t : Tier1.Tier1Transaction)
    : Tier1.Tier1Transaction :=
  {| Tier1.id := Tier1.id t;
     Tier1.transaction_id := Tier1.transaction_id t;
     Tier1.platform := Tier1.platform t;
     Tier1.platform_integration_id := Tier1.platform_integration_id t;
     Tier1.external_transaction_id := Tier1.external_transaction_id t;
     Tier1.reference := Tier1.reference t;
     Tier1.description := Tier1.description t;
     Tier1.amount := Tier1.amount t;
     Tier1.currency := Tier1.currency t;
     Tier1.payment_method := Tier1.payment_method t;
     Tier1.payment_channel := Tier1.payment_channel t;
     Tier1.customer_id := Tier1.customer_id t;
     Tier1.customer_email := Tier1.customer_email t;
     Tier1.customer_phone := Tier1.customer_phone t;
     Tier1.customer_name := Tier1.customer_name t;
     Tier1.platform_request_data := Tier1.platform_request_data t;
     Tier1.platform_response_data := Tier1.platform_response_data t;
     Tier1.platform_callback_data := Tier1.platform_callback_data t;
     Tier1.status := Tier1.status t;
     Tier1.platform_status := Tier1.platform_status t;
     Tier1.failure_reason := Tier1.failure_reason t;
     Tier1.initiated_at := Tier1.initiated_at t;
     Tier1.processed_at := Tier1.processed_at t;
     Tier1.completed_at := Tier1.completed_at t;
     Tier1.response_time := Tier1.response_time t;
     Tier1.platform_fee := Tier1.platform_fee t;
     Tier1.gateway_fee := Tier1.gateway_fee t;
     Tier1.total_fees := Tier1.total_fees t;
     Tier1.net_amount := Tier1.net_amount t;
     Tier1.country_code := Tier1.country_code t;
     Tier1.mobile_network := Tier1.mobile_network t;
     Tier1.bank_code := Tier1.bank_code t;
     Tier1.ip_address := Tier1.ip_address t;
     Tier1.user_agent := Tier1.user_agent t;
     Tier1.created_at := Tier1.created_at t;
     Tier1.updated_at := at_ |}.

(** The [transaction_id]s of the two ledgers, and a database whose
    primary keys and [transaction_id]s are each held by one row only, as
    the primary-key and unique constraints of the tables demand. *)
Definition payment_ids (d : DB) : list string :=
  map African.transaction_id (payment_transactions d).

Definition tier1_ids (d : DB) : list string :=
  map Tier1.transaction_id (tier1_transactions d).

Definition unique_keys (d : DB) : Prop :=
  NoDup (payment_keys d) /\ NoDup (tier1_keys d).

Definition unique_ids (d : DB) : Prop :=
  NoDup (payment_ids d) /\ NoDup (tier1_ids d).

(** The columns of a Tier 1 transaction that no status update assigns. *)
Definition same_payment (t t' : Tier1.Tier1Transaction) : Prop :=
  Tier1.id t' = Tier1.id t
  /\ Tier1.transaction_id t' = Tier1.transaction_id t
  /\ Tier1.platform t' = Tier1.platform t
  /\ Tier1.platform_integration_id t' = Tier1.platform_integration_id t
  /\ Tier1.reference t' = Tier1.reference t
  /\ Tier1.description t' = Tier1.description t
  /\ Tier1.amount t' = Tier1.amount t
  /\ Tier1.currency t' = Tier1.currency t
  /\ Tier1.payment_method t' = Tier1.payment_method t
  /\ Tier1.payment_channel t' = Tier1.payment_channel t
  /\ Tier1.customer_id t' = Tier1.customer_id t
  /\ Tier1.customer_email t' = Tier1.customer_email t
  /\ Tier1.customer_phone t' = Tier1.customer_phone t
  /\ Tier1.customer_name t' = Tier1.customer_name t
  /\ Tier1.platform_request_data t' = Tier1.platform_request_data t
  /\ Tier1.initiated_at t' = Tier1.initiated_at t
  /\ Tier1.country_code t' = Tier1.country_code t
  /\ Tier1.mobile_network t' = Tier1.mobile_network t
  /\ Tier1.bank_code t' = Tier1.bank_code t
  /\ Tier1.ip_address t' = Tier1.ip_address t
  /\ Tier1.user_agent t' = Tier1.user_agent t
  /\ Tier1.created_at t' = Tier1.created_at t.

(** The keyword arguments [create_transaction] builds for an integration,
    a UUID, an upper-cased currency and the country code of the
    integration's gateway. *)
Definition creation_args (peer : AfricanRoutes.Peer) (data : gmap string json)
    (integration : African.PaymentGatewayIntegration) (hex currency country : string)
    : African.PaymentTransactionArgs :=
  {| African.arg_transaction_id :=
       "txn_" +:+ African.int_gateway_id integration +:+ "_" +:+ substring 0 12 hex;
     African.arg_gateway_id := African.int_gateway_id integration;
     African.arg_integration_id := African.int_integration_id integration;
     African.arg_reference := dict_get data "reference";
     African.arg_description := dict_get data "description";
     African.arg_amount := dict_get data "amount";
     African.arg_currency := currency;
     African.arg_payment_method := dict_get data "payment_method";
     African.arg_payment_channel := dict_get data "payment_channel";
     African.arg_customer_id := dict_get data "customer_id";
     African.arg_customer_email := dict_get data "customer_email";
     African.arg_customer_phone := dict_get data "customer_phone";
     African.arg_customer_name := dict_get data "customer_name";
     African.arg_country_code := default (JStr country) (data !! "country_code");
     African.arg_mobile_network := dict_get data "mobile_network";
     African.arg_bank_code := dict_get data "bank_code";
     African.arg_ip_address := AfricanRoutes.remote_addr peer;
     African.arg_user_agent := AfricanRoutes.user_agent_header peer;
     African.arg_status := JStr "Pending" |}.


(** The endpoints that answer a GET. *)
Definition is_get (request : Request) : bool :=
  match request with
  | GET_transactions _ | GET_analytics_overview _ | GET_tier1_transactions _
  | GET_tier1_transaction _ | GET_tier1_analytics_overview _ => true
  | POST_transactions _ _ | POST_tier1_transactions _
  | PUT_tier1_transaction_status _ _ | DELETE_finance_entity _ => false
  end.

(** Keys that are 1, 2, ..., n in the order of the rows. *)
Definition counted_from_one (keys : list Z) : Prop :=
  keys = map Z.of_nat (seq 1 (length keys)).

(** * Properties *)

(** ** Running a handler step by step *)

Lemma bind_Ok {A B : Type} (m : M A) (k : A -> M B) (w w' : World) (b : B) :
  bind m k w = (Ok b, w') ->
  exists a w1, m w = (Ok a, w1) /\ k a w1 = (Ok b, w').
Proof.
  unfold bind. destruct (m w) as [[a | e] w1]; intros H.
  - exists a, w1. split; [reflexivity | exact H].
  - discriminate H.
Qed.

Lemma result_bind_Ok {A B : Type} (r : result A) (k : A -> result B) (b : B) :
  result_bind r k = Ok b -> exists a, r = Ok a /\ k a = Ok b.
Proof. destruct r as [a | e]; simpl; intros H; [eauto | discriminate]. Qed.

Lemma text_bind_Ok (v v' : json) : text_bind v = Ok v' -> v' = v.
Proof. unfold text_bind. destruct (sqlite_scalar v); congruence. Qed.

Lemma not_null_Ok (v v' : json) : not_null v = Ok v' -> v' = v.
Proof. destruct v; simpl; congruence. Qed.

(** ** Handlers that only read *)

Lemma reads_only_ret {A : Type} (a : A) : reads_only (ret a).
Proof. intros w. reflexivity. Qed.

Lemma reads_only_raise {A : Type} (e : exn) : reads_only (@raise A e).
Proof. intros w. reflexivity. Qed.

Lemma reads_only_lift {A : Type} (r : result A) : reads_only (lift r).
Proof. intros w. reflexivity. Qed.

Lemma reads_only_utcnow : reads_only utcnow.
Proof. intros w. reflexivity. Qed.

Lemma reads_only_uuid4_hex : reads_only uuid4_hex.
Proof. intros w. reflexivity. Qed.

Lemma reads_only_query {A : Type} (select : DB -> A) : reads_only (query select).
Proof. intros w. reflexivity. Qed.

Lemma reads_only_bind_param (param : json) : reads_only (bind_param param).
Proof. intros w. unfold bind_param. destruct (sqlite_scalar param); reflexivity. Qed.

Lemma reads_only_bind {A B : Type} (m : M A) (k : A -> M B) :
  reads_only m -> (forall a, reads_only (k a)) -> reads_only (bind m k).
Proof.
  intros Hm Hk w. unfold bind. specialize (Hm w).
  destruct (m w) as [[a | e] w1]; simpl in *.
  - rewrite Hk. exact Hm.
  - exact Hm.
Qed.

Lemma reads_only_try_except {A : Type} (body : M A) (handler : exn -> M A) :
  reads_only body -> (forall e, reads_only (handler e)) -> reads_only (try_except body handler).
Proof.
  intros Hb Hh w. unfold try_except. specialize (Hb w).
  destruct (body w) as [[a | e] w1]; simpl in *.
  - exact Hb.
  - rewrite Hh. exact Hb.
Qed.

Create HintDb reads.
#[local] Hint Resolve reads_only_ret reads_only_raise reads_only_lift reads_only_utcnow
  reads_only_uuid4_hex reads_only_query reads_only_bind_param : reads.

(** Walks a handler made of reads, branch by branch. *)
Ltac read_through :=
  repeat first
    [ progress cbv zeta
    | apply reads_only_try_except; [| intros ? ]
    | apply reads_only_bind; [| intros ? ]
    | solve [ auto with reads ]
    | match goal with
      | |- reads_only (match ?x with _ => _ end) => destruct x
      | |- reads_only (if ?c then _ else _) => destruct c
      end ].

Lemma get_transactions_reads (args : AfricanRoutes.ListArgs) :
  reads_only (AfricanRoutes.get_transactions args).
Proof. unfold AfricanRoutes.get_transactions. read_through. Qed.

Lemma african_overview_reads (args : AfricanRoutes.OverviewArgs) :
  reads_only (AfricanRoutes.get_analytics_overview args).
Proof. unfold AfricanRoutes.get_analytics_overview. read_through. Qed.

Lemma tier1_overview_reads (days : option Z) :
  reads_only (Tier1Routes.get_analytics_overview days).
Proof. unfold Tier1Routes.get_analytics_overview. read_through. Qed.

Lemma get_tier1_transactions_reads (args : Tier1Routes.ListArgs) :
  reads_only (Tier1Routes.get_tier1_transactions args).
Proof. unfold Tier1Routes.get_tier1_transactions. read_through. Qed.

Lemma get_tier1_transaction_reads (wanted : string) :
  reads_only (Tier1Routes.get_tier1_transaction wanted).
Proof.
  unfold Tier1Routes.get_tier1_transaction, Tier1Routes.first_transaction. read_through.
Qed.

(** ** Handlers that keep the ledgers *)

Lemma ledger_kept_refl (d : DB) : ledger_kept d d.
Proof. split; reflexivity. Qed.

Lemma ledger_kept_trans (d1 d2 d3 : DB) :
  ledger_kept d1 d2 -> ledger_kept d2 d3 -> ledger_kept d1 d3.
Proof. intros [H1 H2] [H3 H4]. split; etrans; eassumption. Qed.

Lemma reads_only_keeps {A : Type} (m : M A) : reads_only m -> keeps_ledger m.
Proof. intros H w. rewrite H. apply ledger_kept_refl. Qed.

Lemma keeps_ledger_bind {A B : Type} (m : M A) (k : A -> M B) :
  keeps_ledger m -> (forall a, keeps_ledger (k a)) -> keeps_ledger (bind m k).
Proof.
  intros Hm Hk w. unfold bind. specialize (Hm w).
  destruct (m w) as [[a | e] w1]; simpl in *.
  - eapply ledger_kept_trans; [exact Hm | apply Hk].
  - exact Hm.
Qed.

Lemma keeps_ledger_try_except {A : Type} (body : M A) (handler : exn -> M A) :
  keeps_ledger body -> (forall e, keeps_ledger (handler e)) ->
  keeps_ledger (try_except body handler).
Proof.
  intros Hb Hh w. unfold try_except. specialize (Hb w).
  destruct (body w) as [[a | e] w1]; simpl in *.
  - exact Hb.
  - eapply ledger_kept_trans; [exact Hb | apply Hh].
Qed.

Lemma keeps_ledger_commit (change : DB -> DB) :
  (forall d, ledger_kept d (change d)) -> keeps_ledger (commit change).
Proof. intros H w. simpl. apply H. Qed.

Lemma append_payment_kept (row : African.PaymentTransaction) (d : DB) :
  ledger_kept d (with_payment_transactions (payment_transactions d ++ [row]) d).
Proof.
  split; unfold payment_keys, tier1_keys; simpl.
  - rewrite map_app. apply prefix_app_r. reflexivity.
  - reflexivity.
Qed.

Lemma append_tier1_kept (row : Tier1.Tier1Transaction) (d : DB) :
  ledger_kept d (with_tier1_transactions (tier1_transactions d ++ [row]) d).
Proof.
  split; unfold payment_keys, tier1_keys; simpl.
  - reflexivity.
  - rewrite map_app. apply prefix_app_r. reflexivity.
Qed.

Lemma update_row_keys (changed : Tier1.Tier1Transaction) (rows : list Tier1.Tier1Transaction) :
  map Tier1.id (Tier1Routes.update_row changed rows) = map Tier1.id rows.
Proof.
  unfold Tier1Routes.update_row. induction rows as [| t rows IH]; simpl.
  - reflexivity.
  - rewrite IH. destruct (Z.eqb_spec (Tier1.id t) (Tier1.id changed)) as [Heq | _].
    + rewrite Heq. reflexivity.
    + reflexivity.
Qed.

Lemma update_row_kept (changed : Tier1.Tier1Transaction) (d : DB) :
  ledger_kept d (with_tier1_transactions (Tier1Routes.update_row changed (tier1_transactions d)) d).
Proof.
  split; unfold payment_keys, tier1_keys; simpl.
  - reflexivity.
  - rewrite update_row_keys. reflexivity.
Qed.

Lemma finance_change_kept (rows : list Finance.FinanceEntity) (d : DB) :
  ledger_kept d (with_finance_entities rows d).
Proof. split; reflexivity. Qed.

Create HintDb ledger.
#[local] Hint Resolve append_payment_kept append_tier1_kept update_row_kept
  finance_change_kept : ledger.

(** Walks a handler, branch by branch, down to its reads and commits. *)
Ltac ledger_through :=
  repeat first
    [ progress cbv zeta
    | apply keeps_ledger_try_except; [| intros ? ]
    | apply keeps_ledger_bind; [| intros ? ]
    | solve [ apply reads_only_keeps; auto with reads ]
    | solve [ apply keeps_ledger_commit; intros ?; auto with ledger ]
    | match goal with
      | |- keeps_ledger (match ?x with _ => _ end) => destruct x
      | |- keeps_ledger (if ?c then _ else _) => destruct c
      end ].

Lemma create_transaction_keeps (peer : AfricanRoutes.Peer) (data : gmap string json) :
  keeps_ledger (AfricanRoutes.create_transaction peer data).
Proof.
  unfold AfricanRoutes.create_transaction, AfricanRoutes.first_integration,
    AfricanRoutes.currency_upper, AfricanRoutes.integration_gateway_country_code,
    AfricanRoutes.add_and_commit.
  ledger_through.
Qed.

Lemma create_tier1_transaction_keeps (data : gmap string json) :
  keeps_ledger (Tier1Routes.create_tier1_transaction data).
Proof.
  unfold Tier1Routes.create_tier1_transaction, Tier1Routes.add_and_commit.
  ledger_through.
Qed.

Lemma update_timing_reads (data : gmap string json) (t : Tier1.Tier1Transaction) :
  reads_only (Tier1Routes.update_timing data t).
Proof.
  unfold Tier1Routes.update_timing, Tier1Routes.response_time_ms. read_through.
Qed.

Lemma update_transaction_status_keeps (wanted : string) (data : gmap string json) :
  keeps_ledger (Tier1Routes.update_transaction_status wanted data).
Proof.
  unfold Tier1Routes.update_transaction_status, Tier1Routes.first_transaction.
  ledger_through.
  apply reads_only_keeps, update_timing_reads.
Qed.

Lemma delete_entity_keeps (entity_id : Z) :
  keeps_ledger (FinanceRoutes.delete_entity entity_id).
Proof.
  unfold FinanceRoutes.delete_entity, FinanceRoutes.get_or_404. ledger_through.
Qed.

Lemma serve_keeps (request : Request) (w : World) :
  ledger_kept (db w) (db (serve request w)).
Proof.
  destruct request; cbn [serve].
  - apply reads_only_keeps, get_transactions_reads.
  - apply create_transaction_keeps.
  - apply reads_only_keeps, african_overview_reads.
  - apply reads_only_keeps, get_tier1_transactions_reads.
  - apply create_tier1_transaction_keeps.
  - apply reads_only_keeps, get_tier1_transaction_reads.
  - apply update_transaction_status_keeps.
  - apply reads_only_keeps, tier1_overview_reads.
  - apply delete_entity_keeps.
Qed.

(** ** What an accepted creation stores *)

Lemma reads_only_run {A : Type} (m : M A) (w w1 : World) (r : result A) :
  reads_only m -> m w = (r, w1) -> db w1 = db w.
Proof. intros H E. specialize (H w). rewrite E in H. exact H. Qed.

Lemma try_except_Ok {A : Type} (body : M A) (handler : exn -> M A) (w w' : World) (a : A) :
  try_except body handler w = (Ok a, w') ->
  body w = (Ok a, w') \/ exists e w1, body w = (Raise e, w1) /\ handler e w1 = (Ok a, w').
Proof.
  unfold try_except. destruct (body w) as [[a1 | e] w1]; intros H.
  - left. exact H.
  - right. exists e, w1. split; [reflexivity | exact H].
Qed.

Lemma existsb_false_all {A : Type} (f : A -> bool) (l : list A) :
  existsb f l = false -> forall x, x ∈ l -> f x = false.
Proof.
  intros H x Hx. apply list_elem_of_In in Hx.
  destruct (f x) eqn:E; [| reflexivity].
  assert (existsb f l = true) as Ht by (apply existsb_exists; eauto).
  congruence.
Qed.

(** Peels the bound parameters of an INSERT or UPDATE that went through. *)
Ltac peel_binds :=
  repeat match goal with
    | E : result_bind _ _ = Ok _ |- _ => apply result_bind_Ok in E as (? & ? & ?)
    | E : text_bind _ = Ok _ |- _ => apply text_bind_Ok in E
    | E : not_null _ = Ok _ |- _ => apply not_null_Ok in E
    end;
  subst.

Lemma african_insert_row_Ok (new_id : Z) (t1 t2 t3 : datetime)
    (args : African.PaymentTransactionArgs) (row : African.PaymentTransaction) :
  African.insert_row new_id t1 t2 t3 args = Ok row ->
  African.id row = new_id
  /\ African.transaction_id row = African.arg_transaction_id args
  /\ African.gateway_id row = African.arg_gateway_id args
  /\ African.integration_id row = African.arg_integration_id args
  /\ African.reference row = African.arg_reference args
  /\ African.status row = African.arg_status args
  /\ numeric_bind (African.arg_amount args) = Ok (Some (African.amount row)).
Proof.
  unfold African.insert_row. intros H. peel_binds.
  match goal with
  | H : match ?bound with Some _ => _ | None => _ end = Ok _ |- _ =>
      destruct bound as [hundredths |]; [injection H as <- | discriminate H]
  end.
  simpl. repeat split; try reflexivity. assumption.
Qed.

Lemma african_add_and_commit_Ok (args : African.PaymentTransactionArgs) (w w' : World)
    (row : African.PaymentTransaction) :
  AfricanRoutes.add_and_commit args w = (Ok row, w') ->
  (exists t1 t2 t3,
     African.insert_row (next_id (payment_keys (db w))) t1 t2 t3 args = Ok row)
  /\ (forall t, t ∈ payment_transactions (db w) ->
        African.transaction_id t <> African.transaction_id row)
  /\ db w' = with_payment_transactions (payment_transactions (db w) ++ [row]) (db w).
Proof.
  unfold AfricanRoutes.add_and_commit, bind, query, utcnow, lift, commit, raise, ret.
  cbn [db clock clock_reads].
  match goal with |- context [African.insert_row ?i ?a ?b ?c args] =>
    destruct (African.insert_row i a b c args) as [row' | e] eqn:Hrow end;
    [| discriminate].
  destruct (existsb _ _) eqn:Hfresh; [discriminate |].
  intros H. injection H as <- <-. split; [| split].
  - eauto.
  - intros t Ht Heq. pose proof (existsb_false_all _ _ Hfresh t Ht) as Hne.
    cbv beta in Hne. rewrite Heq in Hne. rewrite String.eqb_refl in Hne. discriminate.
  - reflexivity.
Qed.

Lemma first_integration_reads (param : json) :
  reads_only (AfricanRoutes.first_integration param).
Proof. unfold AfricanRoutes.first_integration. read_through. Qed.

Lemma currency_upper_reads (v : json) : reads_only (AfricanRoutes.currency_upper v).
Proof. unfold AfricanRoutes.currency_upper. read_through. Qed.

Lemma gateway_country_code_reads (integration : African.PaymentGatewayIntegration) :
  reads_only (AfricanRoutes.integration_gateway_country_code integration).
Proof. unfold AfricanRoutes.integration_gateway_country_code. read_through. Qed.

Lemma create_transaction_created (peer : AfricanRoutes.Peer) (data : gmap string json)
    (w w' : World) (r : AfricanRoutes.Response) :
  AfricanRoutes.create_transaction peer data w = (Ok r, w') ->
  AfricanRoutes.code r = 201 ->
  exists row,
    db w' = with_payment_transactions (payment_transactions (db w) ++ [row]) (db w)
    /\ AfricanRoutes.body r
       = AfricanRoutes.BTransaction "Transaction created successfully" (African.to_dict row)
    /\ African.id row = next_id (payment_keys (db w))
    /\ (forall t, t ∈ payment_transactions (db w) ->
          African.transaction_id t <> African.transaction_id row)
    /\ column_is (African.integration_id row) (dict_get data "integration_id") = true
    /\ African.reference row = dict_get data "reference"
    /\ African.status row = JStr "Pending"
    /\ numeric_bind (dict_get data "amount") = Ok (Some (African.amount row)).
Proof.
  unfold AfricanRoutes.create_transaction. intros H Hcode.
  apply try_except_Ok in H as [H | (e & w1 & _ & H)];
    [| injection H as <- _; discriminate Hcode].
  destruct (find _ AfricanRoutes.required_fields) as [field |];
    [injection H as <- _; discriminate Hcode |].
  apply bind_Ok in H as (found & w1 & Hfound & H).
  pose proof (reads_only_run _ _ _ _ (first_integration_reads _) Hfound) as Hw1.
  destruct found as [integration |]; [| injection H as <- _; discriminate Hcode].
  apply bind_Ok in H as (hex & w2 & Hhex & H).
  pose proof (reads_only_run _ _ _ _ reads_only_uuid4_hex Hhex) as Hw2.
  apply bind_Ok in H as (currency & w3 & Hcur & H).
  pose proof (reads_only_run _ _ _ _ (currency_upper_reads _) Hcur) as Hw3.
  apply bind_Ok in H as (country & w4 & Hcountry & H).
  pose proof (reads_only_run _ _ _ _ (gateway_country_code_reads _) Hcountry) as Hw4.
  apply bind_Ok in H as (row & w5 & Hrow & H).
  injection H as <- <-.
  apply african_add_and_commit_Ok in Hrow as ((t1 & t2 & t3 & Hins) & Hfresh & Hdb).
  apply african_insert_row_Ok in Hins as (Hid & _ & _ & Hint & Href & Hstatus & Hamount).
  assert (db w4 = db w) as Hw by congruence.
  rewrite Hw in *.
  cbn [African.arg_integration_id African.arg_reference African.arg_status
       African.arg_amount] in Hint, Href, Hstatus, Hamount.
  exists row. repeat split; try assumption.
  rewrite Hint.
  unfold AfricanRoutes.first_integration, bind, bind_param, query, ret, raise in Hfound.
  destruct (sqlite_scalar (dict_get data "integration_id")); [| discriminate Hfound].
  injection Hfound as Hfind _.
  apply find_some in Hfind as [_ Hmatch]. exact Hmatch.
Qed.

Lemma tier1_insert_row_Ok (new_id : Z) (t1 t2 t3 : datetime)
    (args : Tier1.Tier1TransactionArgs) (row : Tier1.Tier1Transaction) :
  Tier1.insert_row new_id t1 t2 t3 args = Ok row ->
  Tier1.id row = new_id
  /\ Tier1.transaction_id row = Tier1.arg_transaction_id args
  /\ Tier1.reference row = Tier1.arg_reference args
  /\ Tier1.status row = Tier1.status_default
  /\ numeric_bind (Tier1.arg_amount args) = Ok (Some (Tier1.amount row)).
Proof.
  unfold Tier1.insert_row. intros H. peel_binds.
  match goal with
  | H : match ?bound with Some _ => _ | None => _ end = Ok _ |- _ =>
      destruct bound as [hundredths |]; [injection H as <- | discriminate H]
  end.
  simpl. repeat split; try reflexivity. assumption.
Qed.

Lemma tier1_add_and_commit_Ok (args : Tier1.Tier1TransactionArgs) (w w' : World)
    (row : Tier1.Tier1Transaction) :
  Tier1Routes.add_and_commit args w = (Ok row, w') ->
  (exists t1 t2 t3, Tier1.insert_row (next_id (tier1_keys (db w))) t1 t2 t3 args = Ok row)
  /\ (forall t, t ∈ tier1_transactions (db w) ->
        Tier1.transaction_id t <> Tier1.transaction_id row)
  /\ db w' = with_tier1_transactions (tier1_transactions (db w) ++ [row]) (db w).
Proof.
  unfold Tier1Routes.add_and_commit, bind, query, utcnow, lift, commit, raise, ret.
  cbn [db clock clock_reads].
  match goal with |- context [Tier1.insert_row ?i ?a ?b ?c args] =>
    destruct (Tier1.insert_row i a b c args) as [row' | e] eqn:Hrow end;
    [| discriminate].
  destruct (existsb _ _) eqn:Hfresh; [discriminate |].
  intros H. injection H as <- <-. split; [| split].
  - eauto.
  - intros t Ht Heq. pose proof (existsb_false_all _ _ Hfresh t Ht) as Hne.
    cbv beta in Hne. rewrite Heq in Hne. rewrite String.eqb_refl in Hne. discriminate.
  - reflexivity.
Qed.

Lemma create_tier1_transaction_created (data : gmap string json) (w w' : World)
    (r : Tier1Routes.Response) :
  Tier1Routes.create_tier1_transaction data w = (Ok r, w') ->
  Tier1Routes.code r = 201 ->
  exists row,
    db w' = with_tier1_transactions (tier1_transactions (db w) ++ [row]) (db w)
    /\ Tier1Routes.body r
       = Tier1Routes.BMessage "Tier 1 transaction created successfully" (Tier1.to_dict row)
    /\ Tier1.id row = next_id (tier1_keys (db w))
    /\ (forall t, t ∈ tier1_transactions (db w) ->
          Tier1.transaction_id t <> Tier1.transaction_id row)
    /\ Tier1.status row = JStr "Pending"
    /\ numeric_bind (dict_get data "amount") = Ok (Some (Tier1.amount row)).
Proof.
  unfold Tier1Routes.create_tier1_transaction. intros H Hcode.
  apply try_except_Ok in H as [H | (e & w1 & _ & H)];
    [| injection H as <- _; discriminate Hcode].
  destruct (find _ Tier1Routes.required_fields) as [field |];
    [injection H as <- _; discriminate Hcode |].
  apply bind_Ok in H as (hex & w1 & Hhex & H).
  pose proof (reads_only_run _ _ _ _ reads_only_uuid4_hex Hhex) as Hw1.
  apply bind_Ok in H as (reference_hex & w2 & Hhex2 & H).
  pose proof (reads_only_run _ _ _ _ reads_only_uuid4_hex Hhex2) as Hw2.
  apply bind_Ok in H as (row & w3 & Hrow & H).
  injection H as <- <-.
  apply tier1_add_and_commit_Ok in Hrow as ((t1 & t2 & t3 & Hins) & Hfresh & Hdb).
  apply tier1_insert_row_Ok in Hins as (Hid & _ & _ & Hstatus & Hamount).
  assert (db w2 = db w) as Hw by congruence.
  rewrite Hw in *.
  cbn [Tier1.arg_amount] in Hamount.
  exists row. repeat split; assumption.
Qed.

(** ** What a status update does to the stored transaction *)

Lemma json_is_true (v : json) (s : string) : json_is v s = true -> v = JStr s.
Proof.
  destruct v; simpl; try discriminate.
  intros H. apply String.eqb_eq in H. congruence.
Qed.





(** Once a delivery has been applied, the timing block has nothing left
    to do for the same body. *)
Lemma update_timing_settled (data : gmap string json) (t t1 : Tier1.Tier1Transaction)
    (w w1 w2 : World) (timing : option datetime * option datetime * option Z) :
  Tier1Routes.update_timing data t w = (Ok timing, w1) ->
  Tier1.processed_at t1 = timing.1.1 ->
  Tier1.completed_at t1 = timing.1.2 ->
  Tier1.response_time t1 = timing.2 ->
  Tier1Routes.update_timing data t1 w2 = (Ok timing, w2).
Proof.
  intros H Hp Hc Hr. destruct timing as [[p c] rt]. simpl in Hp, Hc, Hr. subst p c rt.
  unfold Tier1Routes.update_timing in *.
  destruct (dict_has data "status") eqn:Hhas; [| reflexivity].
  cbv zeta in *.
  destruct (json_is (dict_get data "status") "Processing") eqn:Hprocessing.
  - apply json_is_true in Hprocessing as Hstatus. rewrite Hstatus in *. simpl in H |- *.
    destruct (Tier1Routes.unset (Tier1.processed_at t)) eqn:Hunset.
    + unfold bind, utcnow, ret in H. injection H as Hp Hc Hr _.
      rewrite <- Hp. reflexivity.
    + simpl in H. injection H as Hp Hc Hr _.
      rewrite <- Hp, Hunset. reflexivity.
  - simpl in H |- *.
    destruct (json_is (dict_get data "status") "Success"
              || json_is (dict_get data "status") "Failed"
              || json_is (dict_get data "status") "Cancelled") eqn:Hdone;
      [| reflexivity].
    simpl in H |- *.
    destruct (Tier1Routes.unset (Tier1.completed_at t)) eqn:Hunset.
    + assert (exists c, Tier1.completed_at t1 = Some c) as [c Hset].
      { unfold bind, utcnow in H. cbn [db clock clock_reads] in H.
        destruct (Tier1.initiated_at t).
        - unfold Tier1Routes.response_time_ms, bind in H.
          destruct (int_of_float _); unfold ret, raise in H; [| discriminate H].
          injection H as _ Hc _ _. eauto.
        - unfold ret in H. injection H as _ Hc _ _. eauto. }
      rewrite Hset. reflexivity.
    + injection H as Hp Hc Hr _. rewrite <- Hc, Hunset. reflexivity.
Qed.

Lemma assigned_Ok (data : gmap string json) (field : string) (current v : json) :
  Tier1Routes.assigned data field current = Ok v ->
  v = default current (data !! field).
Proof.
  unfold Tier1Routes.assigned. destruct (data !! field) as [x |]; simpl.
  - apply text_bind_Ok.
  - congruence.
Qed.

Lemma assigned_again (data : gmap string json) (field : string) (current v : json) :
  Tier1Routes.assigned data field current = Ok v ->
  Tier1Routes.assigned data field v = Ok v.
Proof.
  unfold Tier1Routes.assigned. destruct (data !! field) as [x |]; [tauto | congruence].
Qed.

Lemma assigned_numeric_again (data : gmap string json) (field : string)
    (current v : option Z) :
  Tier1Routes.assigned_numeric data field current = Ok v ->
  Tier1Routes.assigned_numeric data field v = Ok v.
Proof.
  unfold Tier1Routes.assigned_numeric. destruct (data !! field) as [x |]; [tauto | congruence].
Qed.

Lemma dumped_again (data : gmap string json) (field : string) (current : option json) :
  Tier1Routes.dumped data field (Tier1Routes.dumped data field current)
  = Tier1Routes.dumped data field current.
Proof. unfold Tier1Routes.dumped. destruct (data !! field); reflexivity. Qed.

(** The columns of the changed transaction that the properties speak of. *)
Lemma changed_transaction_Ok (data : gmap string json) (t changed : Tier1.Tier1Transaction)
    (timing : option datetime * option datetime * option Z) (now : datetime) :
  Tier1Routes.changed_transaction data t timing now = Ok changed ->
  Tier1.id changed = Tier1.id t
  /\ Tier1.transaction_id changed = Tier1.transaction_id t
  /\ Tier1.status changed = default (Tier1.status t) (data !! "status")
  /\ Tier1.processed_at changed = timing.1.1
  /\ Tier1.completed_at changed = timing.1.2
  /\ Tier1.response_time changed = timing.2
  /\ Tier1.amount changed = Tier1.amount t.
Proof.
  unfold Tier1Routes.changed_transaction. intros H.
  apply result_bind_Ok in H as (new_status & Hstatus & H).
  apply assigned_Ok in Hstatus.
  repeat match type of H with
    | result_bind _ _ = Ok _ => apply result_bind_Ok in H as (? & _ & H)
    end.
  injection H as <-. simpl. repeat split; try reflexivity. exact Hstatus.
Qed.

(** The same body applied to the transaction it produced changes
    [updated_at] and nothing else. *)
Lemma changed_transaction_again (data : gmap string json) (t t1 : Tier1.Tier1Transaction)
    (timing : option datetime * option datetime * option Z) (now now' : datetime) :
  Tier1Routes.changed_transaction data t timing now = Ok t1 ->
  Tier1Routes.changed_transaction data t1
    (Tier1.processed_at t1, Tier1.completed_at t1, Tier1.response_time t1) now'
  = Ok (with_updated_at (Some now') t1).
Proof.
  unfold Tier1Routes.changed_transaction. intros H.
  apply result_bind_Ok in H as (v1 & E1 & H). apply assigned_again in E1.
  apply result_bind_Ok in H as (v2 & E2 & H). apply assigned_again in E2.
  apply result_bind_Ok in H as (v3 & E3 & H). apply assigned_again in E3.
  apply result_bind_Ok in H as (v4 & E4 & H). apply assigned_again in E4.
  apply result_bind_Ok in H as (v5 & E5 & H). apply assigned_numeric_again in E5.
  apply result_bind_Ok in H as (v6 & E6 & H). apply assigned_numeric_again in E6.
  apply result_bind_Ok in H as (v7 & E7 & H). apply assigned_numeric_again in E7.
  apply result_bind_Ok in H as (v8 & E8 & H). apply assigned_numeric_again in E8.
  injection H as <-. cbn -[Tier1Routes.assigned Tier1Routes.assigned_numeric Tier1Routes.dumped].
  rewrite E1, E2, E3, E4, E5, E6, E7, E8. simpl.
  rewrite !dumped_again. reflexivity.
Qed.

(** The lookup by [transaction_id] after the UPDATE finds the changed row. *)
Lemma find_update_row (wanted : string) (t changed : Tier1.Tier1Transaction)
    (rows : list Tier1.Tier1Transaction) :
  find (fun r => String.eqb (Tier1.transaction_id r) wanted) rows = Some t ->
  Tier1.transaction_id changed = Tier1.transaction_id t ->
  Tier1.id changed = Tier1.id t ->
  find (fun r => String.eqb (Tier1.transaction_id r) wanted)
       (Tier1Routes.update_row changed rows) = Some changed.
Proof.
  intros Hfind Htid Hid.
  assert (String.eqb (Tier1.transaction_id changed) wanted = true) as Hchanged.
  { apply find_some in Hfind as [_ Hmatch]. rewrite Htid. exact Hmatch. }
  unfold Tier1Routes.update_row.
  induction rows as [| r rows IH]; simpl in *; [discriminate Hfind |].
  destruct (String.eqb (Tier1.transaction_id r) wanted) eqn:Hr.
  - injection Hfind as ->. rewrite Hid, Z.eqb_refl. simpl. rewrite Hchanged. reflexivity.
  - destruct (Tier1.id r =? Tier1.id changed); simpl.
    + rewrite Hchanged. reflexivity.
    + rewrite Hr. apply IH. exact Hfind.
Qed.

(** Every answer of the status update, with the world it leaves. *)
Lemma update_transaction_status_inv (wanted : string) (data : gmap string json)
    (w w' : World) (r : result Tier1Routes.Response) :
  Tier1Routes.update_transaction_status wanted data w = (r, w') ->
  (db w' = db w /\ exists response, r = Ok response /\ Tier1Routes.code response <> 200)
  \/ (exists t timing w1 changed,
        stored wanted w = Some t
        /\ Tier1Routes.update_timing data t w = (Ok timing, w1)
        /\ Tier1Routes.changed_transaction data t timing (clock w1 (clock_reads w1))
           = Ok changed
        /\ db w' = with_tier1_transactions
                     (Tier1Routes.update_row changed (tier1_transactions (db w))) (db w)
        /\ stored wanted w' = Some changed
        /\ r = Ok {| Tier1Routes.code := 200;
                     Tier1Routes.body :=
                       Tier1Routes.BMessage "Transaction status updated successfully"
                         (Tier1.to_dict changed) |}).
Proof.
  unfold Tier1Routes.update_transaction_status, try_except, Tier1Routes.first_transaction.
  unfold bind at 1. unfold query at 1. fold (stored wanted w).
  destruct (stored wanted w) as [t |] eqn:Hstored.
  2: { intros H. injection H as <- <-. left. split; [reflexivity |].
       eexists. split; [reflexivity | discriminate]. }
  unfold bind at 1.
  destruct (Tier1Routes.update_timing data t w) as [[timing | e] w1] eqn:Htiming.
  2: { intros H. injection H as <- <-. left.
       split; [exact (reads_only_run _ _ _ _ (update_timing_reads data t) Htiming) |].
       eexists. split; [reflexivity | discriminate]. }
  pose proof (reads_only_run _ _ _ _ (update_timing_reads data t) Htiming) as Hw1.
  unfold bind, utcnow, lift, commit, ret. cbn [db clock clock_reads].
  destruct (Tier1Routes.changed_transaction data t timing (clock w1 (clock_reads w1)))
    as [changed | e] eqn:Hchanged.
  2: { intros H. injection H as <- <-. left. split; [exact Hw1 |].
       eexists. split; [reflexivity | discriminate]. }
  intros H. injection H as <- <-. right.
  exists t, timing, w1, changed.
  apply changed_transaction_Ok in Hchanged as Hfields.
  destruct Hfields as (Hid & Htid & _).
  repeat split; try reflexivity; try assumption.
  - simpl. rewrite Hw1. reflexivity.
  - unfold stored. simpl. rewrite Hw1.
    apply (find_update_row wanted t changed); assumption.
Qed.

Lemma run_pair {A : Type} (m : M A) (w : World) (r : result A) :
  (m w).1 = r -> m w = (r, (m w).2).
Proof. destruct (m w) as [r' w']. simpl. intros ->. reflexivity. Qed.


Lemma african_status_code_Ok (answer : result AfricanRoutes.Response) (c : Z) :
  AfricanRoutes.status_code answer = c -> c <> 500 ->
  exists response, answer = Ok response /\ AfricanRoutes.code response = c.
Proof. destruct answer as [response | e]; simpl; intros H Hc; [eauto | congruence]. Qed.

Lemma tier1_status_code_Ok (answer : result Tier1Routes.Response) (c : Z) :
  Tier1Routes.status_code answer = c -> c <> 500 ->
  exists response, answer = Ok response /\ Tier1Routes.code response = c.
Proof. destruct answer as [response | e]; simpl; intros H Hc; [eauto | congruence]. Qed.

(** * The claims *)







(** The status update run forwards: found, timed and bound, it is
    answered 200 and the changed row is the one stored. *)
Lemma update_transaction_status_run (wanted : string) (data : gmap string json)
    (w w1 : World) (t changed : Tier1.Tier1Transaction)
    (timing : option datetime * option datetime * option Z) :
  stored wanted w = Some t ->
  Tier1Routes.update_timing data t w = (Ok timing, w1) ->
  Tier1Routes.changed_transaction data t timing (clock w1 (clock_reads w1)) = Ok changed ->
  let answer := Tier1Routes.update_transaction_status wanted data w in
  Tier1Routes.status_code answer.1 = 200 /\ stored wanted answer.2 = Some changed.
Proof.
  intros Hstored Htiming Hchanged answer. subst answer.
  pose proof (reads_only_run _ _ _ _ (update_timing_reads data t) Htiming) as Hw1.
  apply changed_transaction_Ok in Hchanged as Hfields.
  destruct Hfields as (Hid & Htid & _).
  assert (exists w', Tier1Routes.update_transaction_status wanted data w
                     = (Ok {| Tier1Routes.code := 200;
                              Tier1Routes.body :=
                                Tier1Routes.BMessage "Transaction status updated successfully"
                                  (Tier1.to_dict changed) |}, w')
                     /\ tier1_transactions (db w')
                        = Tier1Routes.update_row changed (tier1_transactions (db w1)))
    as (w' & Hrun & Hrows).
  { unfold Tier1Routes.update_transaction_status, try_except, Tier1Routes.first_transaction.
    unfold bind at 1. unfold query at 1. fold (stored wanted w). rewrite Hstored.
    unfold bind at 1. rewrite Htiming.
    unfold bind, utcnow, lift, commit, ret. cbn [db clock clock_reads].
    rewrite Hchanged. eexists. split; reflexivity. }
  rewrite Hrun. split; [reflexivity |].
  unfold stored. cbn [snd]. rewrite Hrows, Hw1.
  apply (find_update_row wanted t changed); assumption.
Qed.

(** C3, as the code has it.  The status update keeps no [event_id] and
    applies every delivery.  A body delivered again right after it was
    applied is answered 200 again and leaves every column of the transaction
    as the first delivery left it, except [updated_at], which takes the time
    of the second delivery. *)
Theorem redelivery_changes_updated_at_only (wanted : string) (data : gmap string json)
    (w : World) :
  let first := Tier1Routes.update_transaction_status wanted data w in
  let second := Tier1Routes.update_transaction_status wanted data first.2 in
  Tier1Routes.status_code first.1 = 200 ->
  exists t1,
    stored wanted first.2 = Some t1
    /\ Tier1Routes.status_code second.1 = 200
    /\ stored wanted second.2
       = Some (with_updated_at (Some (clock first.2 (clock_reads first.2))) t1).
Proof.
  intros first second. subst first second. cbv zeta. intros Hcode.
  apply tier1_status_code_Ok in Hcode as (r & Hr & Hcode); [| discriminate].
  apply run_pair in Hr.
  apply update_transaction_status_inv in Hr
    as [(_ & r' & Heq & Hne)
       | (t & timing & w1 & t1 & _ & Htiming & Hchanged & _ & Hstored & _)].
  { injection Heq as <-. contradiction. }
  exists t1. split; [exact Hstored |].
  set (w' := (Tier1Routes.update_transaction_status wanted data w).2) in *.
  apply changed_transaction_Ok in Hchanged as Hfields.
  destruct Hfields as (_ & _ & _ & Hp & Hc & Hrt & _).
  assert (Tier1Routes.update_timing data t1 w' = (Ok timing, w')) as Hsettled
    by (apply (update_timing_settled data t t1 w w1 w' timing); assumption).
  assert (timing = (Tier1.processed_at t1, Tier1.completed_at t1, Tier1.response_time t1))
    as Htimes by (destruct timing as [[p c] rt]; simpl in *; congruence).
  apply (changed_transaction_again _ _ _ _ _ (clock w' (clock_reads w'))) in Hchanged.
  rewrite <- Htimes in Hchanged.
  exact (update_transaction_status_run wanted data w' w' t1 _ timing Hstored Hsettled Hchanged).
Qed.

Lemma redelivery_changes_updated_at_only_witness :
  exists t1,
    stored Sample.tier1_id Sample.settled_world = Some t1
    /\ stored Sample.tier1_id
         (Tier1Routes.update_transaction_status Sample.tier1_id (Sample.status_is "Success")
            Sample.settled_world).2
       = Some (with_updated_at
                 (Some (clock Sample.settled_world (clock_reads Sample.settled_world))) t1).
Proof.
  destruct (redelivery_changes_updated_at_only Sample.tier1_id (Sample.status_is "Success")
              Sample.tier1_world)
    as (t1 & Hstored & _ & Hagain);
    [vm_compute; reflexivity |].
  exists t1. split; assumption.
Defined.

(** C3, as the claim states it, fails: with another report in between,
    the second delivery of the same body is applied again.  [Success], then
    [Failed], leaves the transaction [Failed]; delivering the first body
    once more moves it to [Success]. *)
Lemma second_delivery_is_applied :
  Tier1.status
    <$> stored Sample.tier1_id
          (deliver_all Sample.tier1_id
             [Sample.status_is "Success"; Sample.status_is "Failed"] Sample.tier1_world)
  = Some (JStr "Failed")
  /\ Tier1.status
       <$> stored Sample.tier1_id
             (deliver_all Sample.tier1_id
                [Sample.status_is "Success"; Sample.status_is "Failed";
                 Sample.status_is "Success"] Sample.tier1_world)
     = Some (JStr "Success").
Proof. vm_compute. split; reflexivity. Qed.

(** C4, as the code has it.  Both creation endpoints store the new
    transaction with status [Pending]: [create_transaction] passes
    [status='Pending'] and [create_tier1_transaction] leaves the column to
    its default, which is ['Pending'].  There is no [Created] status. *)
Theorem new_transaction_is_pending :
  (forall (peer : AfricanRoutes.Peer) (data : gmap string json) (w : World),
     let answer := AfricanRoutes.create_transaction peer data w in
     AfricanRoutes.status_code answer.1 = 201 ->
     exists row,
       payment_transactions (db answer.2) = (payment_transactions (db w) ++ [row])%list
       /\ African.status row = JStr "Pending")
  /\ (forall (data : gmap string json) (w : World),
        let answer := Tier1Routes.create_tier1_transaction data w in
        Tier1Routes.status_code answer.1 = 201 ->
        exists row,
          tier1_transactions (db answer.2) = (tier1_transactions (db w) ++ [row])%list
          /\ Tier1.status row = JStr "Pending").
Proof.
  split.
  - intros peer data w answer. subst answer. intros Hcode.
    apply african_status_code_Ok in Hcode as (r & Hr & Hcode); [| discriminate].
    apply run_pair in Hr.
    apply create_transaction_created in Hr
      as (row & Hdb & _ & _ & _ & _ & _ & Hstatus & _); [| exact Hcode].
    exists row. rewrite Hdb. split; [reflexivity | exact Hstatus].
  - intros data w answer. subst answer. intros Hcode.
    apply tier1_status_code_Ok in Hcode as (r & Hr & Hcode); [| discriminate].
    apply run_pair in Hr.
    apply create_tier1_transaction_created in Hr
      as (row & Hdb & _ & _ & _ & Hstatus & _); [| exact Hcode].
    exists row. rewrite Hdb. split; [reflexivity | exact Hstatus].
Qed.

Lemma new_transaction_is_pending_witness :
  (exists row,
     payment_transactions (db Sample.first_payment.2) = [row]
     /\ African.status row = JStr "Pending")
  /\ (exists row,
        tier1_transactions (db Sample.tier1_world) = [row]
        /\ Tier1.status row = JStr "Pending").
Proof.
  split.
  - apply (proj1 new_transaction_is_pending Sample.peer (Sample.payment_of 50000)
             Sample.empty_world).
    vm_compute. reflexivity.
  - apply (proj2 new_transaction_is_pending Sample.tier1_payment Sample.empty_world).
    vm_compute. reflexivity.
Defined.

(** C4, as the claim states it, fails: the transaction a creation request
    has just stored is in [Pending], not in [Created], on both endpoints. *)
Lemma created_transaction_is_not_in_created :
  map African.status (payment_transactions (db Sample.first_payment.2)) = [JStr "Pending"]
  /\ map Tier1.status (tier1_transactions (db Sample.tier1_world)) = [JStr "Pending"]
  /\ JStr "Pending" <> JStr "Created".
Proof. vm_compute. repeat split; [reflexivity .. | discriminate]. Qed.

(** ** Counting by status *)

Lemma json_is_exclusive (v : json) (s s' : string) :
  s <> s' -> json_is v s = true -> json_is v s' = false.
Proof.
  intros Hne H. apply json_is_true in H as ->. simpl.
  apply String.eqb_neq. congruence.
Qed.








(** C7.  The analytics overviews only read: whatever the ledger holds and
    whatever the query asks, the database after the overview is the database
    before it, every table of it. *)
Theorem analytics_only_read :
  (forall (args : AfricanRoutes.OverviewArgs) (w : World),
     db (AfricanRoutes.get_analytics_overview args w).2 = db w)
  /\ (forall (days : option Z) (w : World),
        db (Tier1Routes.get_analytics_overview days w).2 = db w).
Proof.
  split.
  - intros args w. apply african_overview_reads.
  - intros days w. apply tier1_overview_reads.
Qed.

(** C8.  No endpoint deletes a transaction: after any sequence of
    requests, every primary key of the two transaction ledgers is still in
    its ledger, at its place; rows are only appended or updated in place.
    The one DELETE of the repository removes finance entities. *)
Theorem no_request_deletes_a_transaction (requests : list Request) (w : World) :
  ledger_kept (db w) (db (serve_all requests w)).
Proof.
  unfold serve_all. revert w.
  induction requests as [| request requests IH]; intros w; simpl.
  - apply ledger_kept_refl.
  - eapply ledger_kept_trans; [apply serve_keeps | apply IH].
Qed.




(** ** The timing columns over a run of deliveries *)








(** * Further properties of the handlers *)

(** ** Every answer of a creation request *)

Lemma create_transaction_inv (peer : AfricanRoutes.Peer) (data : gmap string json)
    (w w' : World) (r : result AfricanRoutes.Response) :
  AfricanRoutes.create_transaction peer data w = (r, w') ->
  (exists field,
     find (fun field => negb (dict_has data field)) AfricanRoutes.required_fields = Some field
     /\ r = Ok {| AfricanRoutes.code := 400;
                  AfricanRoutes.body :=
                    AfricanRoutes.BError ("Missing required field: " +:+ field) |}
     /\ w' = w)
  \/ (find (fun field => negb (dict_has data field)) AfricanRoutes.required_fields = None
      /\ db w' = db w
      /\ (r = Ok {| AfricanRoutes.code := 404;
                    AfricanRoutes.body := AfricanRoutes.BError "Integration not found" |}
          \/ r = Ok {| AfricanRoutes.code := 500;
                       AfricanRoutes.body :=
                         AfricanRoutes.BError "Failed to create transaction" |}))
  \/ (find (fun field => negb (dict_has data field)) AfricanRoutes.required_fields = None
      /\ exists row,
           r = Ok {| AfricanRoutes.code := 201;
                     AfricanRoutes.body :=
                       AfricanRoutes.BTransaction "Transaction created successfully"
                         (African.to_dict row) |}
           /\ db w' = with_payment_transactions (payment_transactions (db w) ++ [row]) (db w)).
Proof.
  unfold AfricanRoutes.create_transaction, try_except.
  destruct (find _ AfricanRoutes.required_fields) as [field |] eqn:Hfind.
  { intros H. injection H as <- <-. left. exists field. auto. }
  unfold bind at 1.
  destruct (AfricanRoutes.first_integration (dict_get data "integration_id") w)
    as [[found | e] w1] eqn:H1;
    pose proof (reads_only_run _ _ _ _ (first_integration_reads _) H1) as Hw1.
  2: { intros H. injection H as <- <-. right. left. auto. }
  destruct found as [integration |].
  2: { intros H. injection H as <- <-. right. left. auto. }
  unfold bind at 1.
  destruct (uuid4_hex w1) as [[hex | e] w2] eqn:H2;
    pose proof (reads_only_run _ _ _ _ reads_only_uuid4_hex H2) as Hw2.
  2: { intros H. injection H as <- <-. right. left. split; [| split]; [auto | congruence | auto]. }
  cbv zeta. unfold bind at 1.
  destruct (AfricanRoutes.currency_upper (dict_get data "currency") w2)
    as [[currency | e] w3] eqn:H3;
    pose proof (reads_only_run _ _ _ _ (currency_upper_reads _) H3) as Hw3.
  2: { intros H. injection H as <- <-. right. left. split; [| split]; [auto | congruence | auto]. }
  unfold bind at 1.
  destruct (AfricanRoutes.integration_gateway_country_code integration w3)
    as [[country | e] w4] eqn:H4;
    pose proof (reads_only_run _ _ _ _ (gateway_country_code_reads _) H4) as Hw4.
  2: { intros H. injection H as <- <-. right. left. split; [| split]; [auto | congruence | auto]. }
  unfold bind at 1.
  match goal with
  | |- context [AfricanRoutes.add_and_commit ?args w4] =>
      destruct (AfricanRoutes.add_and_commit args w4) as [[row | e] w5] eqn:H5
  end.
  - unfold ret. intros H. injection H as <- <-. right. right. split; [reflexivity |].
    exists row. split; [reflexivity |].
    apply african_add_and_commit_Ok in H5 as (_ & _ & Hdb).
    rewrite Hdb. congruence.
  - intros H. injection H as <- <-. right. left. split; [reflexivity |].
    split; [| auto].
    assert (db w5 = db w4) as Hw5.
    { revert H5. unfold AfricanRoutes.add_and_commit, bind, query, utcnow, lift, commit,
        raise, ret. cbn [db clock clock_reads].
      match goal with |- context [African.insert_row ?i ?a ?b ?c ?args] =>
        destruct (African.insert_row i a b c args) end.
      - destruct (existsb _ _); intros H; [| discriminate H].
        injection H as _ <-. reflexivity.
      - intros H. injection H as _ <-. reflexivity. }
    congruence.
Qed.

Lemma not_null_Ok_set (v v' : json) : not_null v = Ok v' -> v' = v /\ v <> JNull.
Proof. destruct v; simpl; intros H; split; congruence. Qed.

(** Peels the bound parameters and keeps what [nullable=False] demanded. *)
Ltac peel_binds_keeping :=
  repeat match goal with
    | E : result_bind _ _ = Ok _ |- _ => apply result_bind_Ok in E as (? & ? & ?)
    | E : text_bind _ = Ok _ |- _ => apply text_bind_Ok in E
    | E : not_null _ = Ok _ |- _ => apply not_null_Ok_set in E as [? ?]
    end;
  subst.

Lemma african_insert_row_columns (new_id : Z) (t1 t2 t3 : datetime)
    (args : African.PaymentTransactionArgs) (row : African.PaymentTransaction) :
  African.insert_row new_id t1 t2 t3 args = Ok row ->
  African.currency row = African.arg_currency args
  /\ African.country_code row = African.arg_country_code args
  /\ African.gateway_id row = African.arg_gateway_id args
  /\ African.transaction_id row = African.arg_transaction_id args
  /\ African.arg_reference args <> JNull
  /\ African.arg_payment_method args <> JNull
  /\ African.arg_country_code args <> JNull
  /\ African.arg_amount args <> JNull.
Proof.
  unfold African.insert_row. intros H. peel_binds_keeping.
  match goal with
  | H : match ?bound with Some _ => _ | None => _ end = Ok _,
    E : numeric_bind _ = Ok ?bound |- _ =>
      destruct bound as [hundredths |]; [injection H as <- | discriminate H];
      assert (African.arg_amount args <> JNull)
        by (intros Hnull; rewrite Hnull in E; discriminate E)
  end.
  simpl. repeat split; solve [reflexivity | assumption].
Qed.

(** An accepted creation, with everything the handler read on the way. *)
Lemma create_transaction_created_args (peer : AfricanRoutes.Peer) (data : gmap string json)
    (w w' : World) (r : AfricanRoutes.Response) :
  AfricanRoutes.create_transaction peer data w = (Ok r, w') ->
  AfricanRoutes.code r = 201 ->
  exists integration s gateway t1 t2 t3 row,
    find (fun i => column_is (African.int_integration_id i) (dict_get data "integration_id"))
         (integrations (db w)) = Some integration
    /\ dict_get data "currency" = JStr s
    /\ find (fun g => String.eqb (African.gw_gateway_id g) (African.int_gateway_id integration))
            (gateways (db w)) = Some gateway
    /\ African.insert_row (next_id (payment_keys (db w))) t1 t2 t3
         (creation_args peer data integration (uuid_source w (uuid_draws w)) (upper s)
            (African.gw_country_code gateway)) = Ok row
    /\ db w' = with_payment_transactions (payment_transactions (db w) ++ [row]) (db w).
Proof.
  unfold AfricanRoutes.create_transaction. intros H Hcode.
  apply try_except_Ok in H as [H | (e & w1 & _ & H)];
    [| injection H as <- _; discriminate Hcode].
  destruct (find _ AfricanRoutes.required_fields) as [field |];
    [injection H as <- _; discriminate Hcode |].
  apply bind_Ok in H as (found & w1 & Hfound & H).
  unfold AfricanRoutes.first_integration, bind, bind_param, query, ret, raise in Hfound.
  destruct (sqlite_scalar (dict_get data "integration_id")); [| discriminate Hfound].
  injection Hfound as Hfind <-.
  destruct found as [integration |]; [| injection H as <- _; discriminate Hcode].
  apply bind_Ok in H as (hex & w2 & Hhex & H).
  unfold uuid4_hex in Hhex. injection Hhex as <- <-.
  apply bind_Ok in H as (currency & w3 & Hcur & H).
  unfold AfricanRoutes.currency_upper in Hcur.
  destruct (dict_get data "currency") as [| | | s | |] eqn:Hcurrency;
    try discriminate Hcur.
  unfold ret in Hcur. injection Hcur as <- <-.
  apply bind_Ok in H as (country & w4 & Hcountry & H).
  unfold AfricanRoutes.integration_gateway_country_code, bind, query in Hcountry.
  cbn [db] in Hcountry.
  destruct (find _ (gateways (db w))) as [gateway |] eqn:Hgateway;
    [| discriminate Hcountry].
  unfold ret in Hcountry. injection Hcountry as <- <-.
  apply bind_Ok in H as (row & w5 & Hrow & H).
  injection H as <- <-.
  apply african_add_and_commit_Ok in Hrow as ((t1 & t2 & t3 & Hins) & _ & Hdb).
  exists integration, s, gateway, t1, t2, t3, row.
  repeat split; assumption.
Qed.

Lemma dict_has_false (data : gmap string json) (k : string) :
  dict_has data k = false <-> data !! k = None.
Proof.
  unfold dict_has. rewrite bool_decide_eq_false. split.
  - intros H. destruct (data !! k) eqn:E; [| reflexivity]. exfalso. apply H. eauto.
  - intros -> [v Hv]. discriminate Hv.
Qed.

Lemma missing_field_found (data : gmap string json) (fields : list string) (field : string) :
  find (fun f => negb (dict_has data f)) fields = Some field ->
  field ∈ fields /\ data !! field = None.
Proof.
  intros H. apply find_some in H as [Hin Hmissing]. split.
  - apply list_elem_of_In. exact Hin.
  - apply dict_has_false. apply negb_true_iff. exact Hmissing.
Qed.

Lemma no_field_missing (data : gmap string json) (fields : list string) :
  find (fun f => negb (dict_has data f)) fields = None <->
  forall field, field ∈ fields -> is_Some (data !! field).
Proof.
  split.
  - intros H field Hin. apply list_elem_of_In in Hin.
    pose proof (find_none _ _ H field Hin) as Hhas. cbv beta in Hhas.
    apply negb_false_iff in Hhas. unfold dict_has in Hhas.
    apply bool_decide_eq_true in Hhas. exact Hhas.
  - intros Hall. destruct (find _ fields) as [field |] eqn:Hfind; [| reflexivity].
    apply missing_field_found in Hfind as [Hin Hnone].
    destruct (Hall field Hin) as [v Hv]. congruence.
Qed.

(** X1.  [create_transaction] answers 400 exactly when one of the five
    required keys is absent from the body (a key present with the value null
    is not absent), and a 400 leaves the world untouched: nothing is read,
    drawn or stored. *)
Theorem missing_field_is_400 (peer : AfricanRoutes.Peer) (data : gmap string json)
    (w : World) :
  let answer := AfricanRoutes.create_transaction peer data w in
  (AfricanRoutes.status_code answer.1 = 400 <->
   exists field, field ∈ AfricanRoutes.required_fields /\ data !! field = None)
  /\ (AfricanRoutes.status_code answer.1 = 400 -> answer.2 = w).
Proof.
  intros answer. subst answer.
  destruct (AfricanRoutes.create_transaction peer data w) as [r w'] eqn:Hrun.
  apply create_transaction_inv in Hrun
    as [(field & Hfind & -> & ->) | [(Hfind & _ & Hr) | (Hfind & row & -> & _)]];
    cbn [fst snd].
  - split; [| reflexivity]. split; [| reflexivity].
    intros _. exists field. exact (missing_field_found _ _ _ Hfind).
  - assert (AfricanRoutes.status_code r <> 400) as Hne
      by (destruct Hr as [-> | ->]; discriminate).
    split; [| contradiction]. split; [contradiction |].
    intros (field & Hin & Hnone).
    destruct (proj1 (no_field_missing _ _) Hfind field Hin) as [v Hv]. congruence.
  - split; [| discriminate]. split; [discriminate |].
    intros (field & Hin & Hnone).
    destruct (proj1 (no_field_missing _ _) Hfind field Hin) as [v Hv]. congruence.
Qed.

Lemma missing_field_is_400_witness :
  AfricanRoutes.status_code
    (AfricanRoutes.create_transaction Sample.peer (delete "reference" (Sample.payment_of 50000))
       Sample.empty_world).1 = 400.
Proof.
  apply (proj2 (proj1 (missing_field_is_400 Sample.peer
                         (delete "reference" (Sample.payment_of 50000)) Sample.empty_world))).
  exists "reference". split; [| vm_compute; reflexivity].
  unfold AfricanRoutes.required_fields. set_solver.
Defined.

Lemma create_tier1_transaction_inv (data : gmap string json) (w w' : World)
    (r : result Tier1Routes.Response) :
  Tier1Routes.create_tier1_transaction data w = (r, w') ->
  (exists field,
     find (fun field => negb (dict_has data field)) Tier1Routes.required_fields = Some field
     /\ r = Ok {| Tier1Routes.code := 400;
                  Tier1Routes.body := Tier1Routes.BError (field +:+ " is required") |}
     /\ w' = w)
  \/ (find (fun field => negb (dict_has data field)) Tier1Routes.required_fields = None
      /\ db w' = db w
      /\ r = Ok {| Tier1Routes.code := 500; Tier1Routes.body := Tier1Routes.BFailure |})
  \/ (find (fun field => negb (dict_has data field)) Tier1Routes.required_fields = None
      /\ exists row,
           r = Ok {| Tier1Routes.code := 201;
                     Tier1Routes.body :=
                       Tier1Routes.BMessage "Tier 1 transaction created successfully"
                         (Tier1.to_dict row) |}
           /\ db w' = with_tier1_transactions (tier1_transactions (db w) ++ [row]) (db w)
           /\ (forall t, t ∈ tier1_transactions (db w) ->
                 Tier1.transaction_id t <> Tier1.transaction_id row)
           /\ Tier1.id row = next_id (tier1_keys (db w))).
Proof.
  unfold Tier1Routes.create_tier1_transaction, try_except.
  destruct (find _ Tier1Routes.required_fields) as [field |] eqn:Hfind.
  { intros H. injection H as <- <-. left. exists field. auto. }
  unfold bind at 1. unfold uuid4_hex at 1. unfold bind at 1. unfold uuid4_hex at 1.
  cbn [db clock clock_reads uuid_source uuid_draws].
  unfold bind at 1.
  match goal with
  | |- context [Tier1Routes.add_and_commit ?args ?w2] =>
      destruct (Tier1Routes.add_and_commit args w2) as [[row | e] w3] eqn:H3
  end.
  - unfold ret. intros H. injection H as <- <-. right. right. split; [reflexivity |].
    exists row. split; [reflexivity |].
    apply tier1_add_and_commit_Ok in H3 as ((t1 & t2 & t3 & Hins) & Hfresh & Hdb).
    apply tier1_insert_row_Ok in Hins as (Hid & _).
    repeat split; assumption.
  - intros H. injection H as <- <-. right. left. split; [reflexivity |].
    split; [| reflexivity].
    revert H3. unfold Tier1Routes.add_and_commit, bind, query, utcnow, lift, commit,
      raise, ret. cbn [db clock clock_reads].
    match goal with |- context [Tier1.insert_row ?i ?a ?b ?c ?args] =>
      destruct (Tier1.insert_row i a b c args) end.
    + destruct (existsb _ _); intros H; [| discriminate H].
      injection H as _ <-. reflexivity.
    + intros H. injection H as _ <-. reflexivity.
Qed.

(** X2.  A creation request that is not answered 201 stores nothing: on
    both creation endpoints every table of the database is as it was. *)
Theorem refused_creation_stores_nothing :
  (forall (peer : AfricanRoutes.Peer) (data : gmap string json) (w : World),
     let answer := AfricanRoutes.create_transaction peer data w in
     AfricanRoutes.status_code answer.1 <> 201 -> db answer.2 = db w)
  /\ (forall (data : gmap string json) (w : World),
        let answer := Tier1Routes.create_tier1_transaction data w in
        Tier1Routes.status_code answer.1 <> 201 -> db answer.2 = db w).
Proof.
  split.
  - intros peer data w answer. subst answer.
    destruct (AfricanRoutes.create_transaction peer data w) as [r w'] eqn:Hrun.
    apply create_transaction_inv in Hrun
      as [(field & _ & _ & ->) | [(_ & Hdb & _) | (_ & row & -> & _)]]; cbn [fst snd].
    + reflexivity.
    + intros _. exact Hdb.
    + intros Hne. contradiction Hne. reflexivity.
  - intros data w answer. subst answer.
    destruct (Tier1Routes.create_tier1_transaction data w) as [r w'] eqn:Hrun.
    apply create_tier1_transaction_inv in Hrun
      as [(field & _ & _ & ->) | [(_ & Hdb & _) | (_ & row & -> & _)]]; cbn [fst snd].
    + reflexivity.
    + intros _. exact Hdb.
    + intros Hne. contradiction Hne. reflexivity.
Qed.

Lemma refused_creation_stores_nothing_witness :
  db (AfricanRoutes.create_transaction Sample.peer
        (<["integration_id" := JStr "int_other"]> (Sample.payment_of 50000))
        Sample.empty_world).2
  = db Sample.empty_world.
Proof.
  apply (proj1 refused_creation_stores_nothing Sample.peer
           (<["integration_id" := JStr "int_other"]> (Sample.payment_of 50000))
           Sample.empty_world).
  vm_compute. discriminate.
Defined.

(** X3.  When every required key is present and [integration_id] names no
    integration, [create_transaction] answers 404 "Integration not found"
    and leaves the world untouched. *)
Theorem unknown_integration_is_404 (peer : AfricanRoutes.Peer) (data : gmap string json)
    (w : World) (wanted : string) :
  (forall field, field ∈ AfricanRoutes.required_fields -> is_Some (data !! field)) ->
  data !! "integration_id" = Some (JStr wanted) ->
  (forall i, i ∈ integrations (db w) -> African.int_integration_id i <> wanted) ->
  AfricanRoutes.create_transaction peer data w
  = (Ok {| AfricanRoutes.code := 404;
           AfricanRoutes.body := AfricanRoutes.BError "Integration not found" |}, w).
Proof.
  intros Hall Hid Hnone.
  assert (AfricanRoutes.first_integration (dict_get data "integration_id") w = (Ok None, w))
    as Hfirst.
  { unfold dict_get. rewrite Hid. simpl.
    unfold AfricanRoutes.first_integration, bind, bind_param, query, ret. simpl.
    destruct (find _ (integrations (db w))) as [i |] eqn:Hfind; [| reflexivity].
    apply find_some in Hfind as [Hin Hmatch]. apply list_elem_of_In in Hin.
    apply String.eqb_eq in Hmatch. destruct (Hnone i Hin Hmatch). }
  unfold AfricanRoutes.create_transaction, try_except.
  rewrite (proj2 (no_field_missing _ _) Hall).
  unfold bind at 1. rewrite Hfirst. reflexivity.
Qed.

Lemma unknown_integration_is_404_witness :
  AfricanRoutes.create_transaction Sample.peer
    (<["integration_id" := JStr "int_other"]> (Sample.payment_of 50000)) Sample.empty_world
  = (Ok {| AfricanRoutes.code := 404;
           AfricanRoutes.body := AfricanRoutes.BError "Integration not found" |},
     Sample.empty_world).
Proof.
  apply (unknown_integration_is_404 Sample.peer
           (<["integration_id" := JStr "int_other"]> (Sample.payment_of 50000))
           Sample.empty_world "int_other").
  - intros field Hin. unfold AfricanRoutes.required_fields in Hin.
    repeat (apply elem_of_cons in Hin as [-> | Hin]; [vm_compute; eauto |]).
    apply elem_of_nil in Hin. destruct Hin.
  - vm_compute. reflexivity.
  - intros i Hin. cbn in Hin. apply list_elem_of_singleton in Hin as ->.
    vm_compute. discriminate.
Defined.

(** X4.  A required key that is present with the value null passes the
    validation of [create_transaction] and is caught only by the NOT NULL
    constraint of its column: with [amount], [reference] or
    [payment_method] null the request is answered 404 or 500, never 400 and
    never 201, and stores nothing. *)
Theorem null_value_is_not_a_400 (peer : AfricanRoutes.Peer) (data : gmap string json)
    (w : World) :
  let answer := AfricanRoutes.create_transaction peer data w in
  (forall field, field ∈ AfricanRoutes.required_fields -> is_Some (data !! field)) ->
  data !! "amount" = Some JNull \/ data !! "reference" = Some JNull
  \/ data !! "payment_method" = Some JNull ->
  (AfricanRoutes.status_code answer.1 = 404 \/ AfricanRoutes.status_code answer.1 = 500)
  /\ db answer.2 = db w.
Proof.
  intros answer. subst answer. intros Hall Hnull.
  destruct (AfricanRoutes.create_transaction peer data w) as [r w'] eqn:Hrun.
  pose proof Hrun as Hinv.
  apply create_transaction_inv in Hinv
    as [(field & Hfind & _ & _) | [(_ & Hdb & Hr) | (_ & row & -> & _)]]; cbn [fst snd].
  - rewrite (proj2 (no_field_missing _ _) Hall) in Hfind. discriminate Hfind.
  - split; [| exact Hdb]. destruct Hr as [-> | ->]; [left | right]; reflexivity.
  - exfalso.
    apply create_transaction_created_args in Hrun
      as (integration & s & gateway & t1 & t2 & t3 & row' & _ & _ & _ & Hins & _);
      [| reflexivity].
    apply african_insert_row_columns in Hins as (_ & _ & _ & _ & Href & Hmethod & _ & Hamount).
    cbn [creation_args African.arg_reference African.arg_payment_method African.arg_amount]
      in Href, Hmethod, Hamount.
    unfold dict_get in Href, Hmethod, Hamount.
    destruct Hnull as [Hnull | [Hnull | Hnull]]; rewrite Hnull in *; simpl in *; congruence.
Qed.

Lemma null_value_is_not_a_400_witness :
  (AfricanRoutes.status_code
     (AfricanRoutes.create_transaction Sample.peer
        (<["amount" := JNull]> (Sample.payment_of 50000)) Sample.empty_world).1 = 404
   \/ AfricanRoutes.status_code
        (AfricanRoutes.create_transaction Sample.peer
           (<["amount" := JNull]> (Sample.payment_of 50000)) Sample.empty_world).1 = 500)
  /\ db (AfricanRoutes.create_transaction Sample.peer
           (<["amount" := JNull]> (Sample.payment_of 50000)) Sample.empty_world).2
     = db Sample.empty_world.
Proof.
  apply (null_value_is_not_a_400 Sample.peer
           (<["amount" := JNull]> (Sample.payment_of 50000)) Sample.empty_world).
  - intros field Hin. unfold AfricanRoutes.required_fields in Hin.
    repeat (apply elem_of_cons in Hin as [-> | Hin]; [vm_compute; eauto |]).
    apply elem_of_nil in Hin. destruct Hin.
  - left. vm_compute. reflexivity.
Defined.

(** ** What a request does to the database *)

Lemma delete_entity_inv (entity_id : Z) (w : World) :
  (find (fun e => Finance.id e =? entity_id) (finance_entities (db w)) = None
   /\ FinanceRoutes.delete_entity entity_id w
      = (Ok {| FinanceRoutes.code := 400; FinanceRoutes.success := false |}, w))
  \/ (exists entity,
        find (fun e => Finance.id e =? entity_id) (finance_entities (db w)) = Some entity
        /\ FinanceRoutes.delete_entity entity_id w
           = (Ok {| FinanceRoutes.code := 200; FinanceRoutes.success := true |},
              with_db
                (with_finance_entities
                   (List.filter (fun e => negb (Finance.id e =? entity_id))
                                (finance_entities (db w)))
                   (db w)) w)).
Proof.
  unfold FinanceRoutes.delete_entity, FinanceRoutes.get_or_404, try_except, bind, query,
    commit, ret, raise.
  cbn [db].
  destruct (find _ (finance_entities (db w))) as [entity |] eqn:Hfind.
  - right. exists entity. split; [reflexivity |].
    apply find_some in Hfind as [_ Hid]. apply Z.eqb_eq in Hid. rewrite Hid. reflexivity.
  - left. split; reflexivity.
Qed.

(** The five things a request can do to the database: nothing, append a
    payment, append a Tier 1 transaction, update the Tier 1 transaction a
    lookup found, or change the finance entities. *)
Lemma serve_effect (request : Request) (w : World) :
  db (serve request w) = db w
  \/ (exists row,
        db (serve request w)
        = with_payment_transactions (payment_transactions (db w) ++ [row]) (db w)
        /\ African.id row = next_id (payment_keys (db w))
        /\ (forall t, t ∈ payment_transactions (db w) ->
              African.transaction_id t <> African.transaction_id row))
  \/ (exists row,
        db (serve request w)
        = with_tier1_transactions (tier1_transactions (db w) ++ [row]) (db w)
        /\ Tier1.id row = next_id (tier1_keys (db w))
        /\ (forall t, t ∈ tier1_transactions (db w) ->
              Tier1.transaction_id t <> Tier1.transaction_id row))
  \/ (exists wanted t changed,
        stored wanted w = Some t
        /\ Tier1.id changed = Tier1.id t
        /\ Tier1.transaction_id changed = Tier1.transaction_id t
        /\ db (serve request w)
           = with_tier1_transactions
               (Tier1Routes.update_row changed (tier1_transactions (db w))) (db w))
  \/ (exists entities, db (serve request w) = with_finance_entities entities (db w)).
Proof.
  destruct request as [args | peer data | args | args | data | wanted | wanted data
                      | days | entity_id]; cbn [serve].
  - left. apply get_transactions_reads.
  - destruct (AfricanRoutes.create_transaction peer data w) as [r w'] eqn:Hrun.
    pose proof Hrun as Hinv.
    apply create_transaction_inv in Hinv
      as [(field & _ & _ & ->) | [(_ & Hdb & _) | (_ & row & -> & _)]]; cbn [snd].
    + left. reflexivity.
    + left. exact Hdb.
    + apply create_transaction_created in Hrun
        as (row' & Hdb & _ & Hid & Hfresh & _); [| reflexivity].
      right. left. exists row'. auto.
  - left. apply african_overview_reads.
  - left. apply get_tier1_transactions_reads.
  - destruct (Tier1Routes.create_tier1_transaction data w) as [r w'] eqn:Hrun.
    apply create_tier1_transaction_inv in Hrun
      as [(field & _ & _ & ->) | [(_ & Hdb & _) | (_ & row & _ & Hdb & Hfresh & Hid)]];
      cbn [snd].
    + left. reflexivity.
    + left. exact Hdb.
    + right. right. left. exists row. auto.
  - left. apply get_tier1_transaction_reads.
  - destruct (Tier1Routes.update_transaction_status wanted data w) as [r w'] eqn:Hrun.
    apply update_transaction_status_inv in Hrun
      as [(Hdb & _) | (t & timing & w1 & changed & Hstored & _ & Hchanged & Hdb & _)];
      cbn [snd].
    + left. exact Hdb.
    + apply changed_transaction_Ok in Hchanged as (Hid & Htid & _).
      right. right. right. left. exists wanted, t, changed. auto.
  - left. apply tier1_overview_reads.
  - destruct (delete_entity_inv entity_id w) as [(_ & ->) | (entity & _ & ->)]; cbn [snd].
    + left. reflexivity.
    + right. right. right. right. eexists. reflexivity.
Qed.

Lemma next_id_above (ids : list Z) (k : Z) : k ∈ ids -> k < next_id ids.
Proof.
  unfold next_id. induction ids as [| i ids IH]; intros Hin.
  - apply elem_of_nil in Hin. destruct Hin.
  - simpl. apply elem_of_cons in Hin as [-> | Hin]; [lia |].
    specialize (IH Hin). lia.
Qed.

Lemma NoDup_append_fresh {A : Type} (l : list A) (x : A) :
  NoDup l -> x ∉ l -> NoDup (l ++ [x]).
Proof.
  intros Hl Hx. apply NoDup_app. split; [exact Hl |]. split.
  - intros y Hy Hin. apply list_elem_of_singleton in Hin as ->. contradiction.
  - apply NoDup_singleton.
Qed.

Lemma NoDup_keys_append (ids : list Z) : NoDup ids -> NoDup (ids ++ [next_id ids]).
Proof.
  intros H. apply NoDup_append_fresh; [exact H |].
  intros Hin. apply next_id_above in Hin. lia.
Qed.

Lemma serve_unique_keys (request : Request) (w : World) :
  unique_keys (db w) -> unique_keys (db (serve request w)).
Proof.
  intros [Hp Ht]. unfold unique_keys, payment_keys, tier1_keys in *.
  destruct (serve_effect request w)
    as [-> | [(row & -> & Hid & _) | [(row & -> & Hid & _)
       | [(wanted & t & changed & _ & _ & _ & ->) | (entities & ->)]]]]; cbn.
  - auto.
  - split; [| exact Ht]. rewrite map_app. cbn. rewrite Hid. apply NoDup_keys_append, Hp.
  - split; [exact Hp |]. rewrite map_app. cbn. rewrite Hid. apply NoDup_keys_append, Ht.
  - split; [exact Hp |]. rewrite update_row_keys. exact Ht.
  - auto.
Qed.

(** X5.  The primary keys of both transaction ledgers stay unique over
    any sequence of requests: a creation takes a key above every key in its
    ledger and an update keeps the keys. *)
Theorem primary_keys_stay_unique (requests : list Request) (w : World) :
  unique_keys (db w) -> unique_keys (db (serve_all requests w)).
Proof.
  unfold serve_all. revert w.
  induction requests as [| request requests IH]; intros w Hw; simpl.
  - exact Hw.
  - apply IH, serve_unique_keys, Hw.
Qed.

Lemma primary_keys_stay_unique_witness :
  unique_keys
    (db (serve_all
           [POST_tier1_transactions Sample.tier1_payment;
            PUT_tier1_transaction_status Sample.tier1_id (Sample.status_is "Success");
            POST_tier1_transactions Sample.tier1_payment;
            POST_transactions Sample.peer (Sample.payment_of 50000)]
           Sample.empty_world)).
Proof.
  apply primary_keys_stay_unique.
  split; vm_compute; apply NoDup_nil_2.
Defined.

Lemma NoDup_map_inj {A B : Type} (f : A -> B) (l : list A) (x y : A) :
  NoDup (map f l) -> x ∈ l -> y ∈ l -> f x = f y -> x = y.
Proof.
  induction l as [| a l IH]; intros Hnd Hx Hy Heq.
  - apply elem_of_nil in Hx. destruct Hx.
  - simpl in Hnd. apply NoDup_cons in Hnd as [Hfresh Hnd].
    assert (forall z, z ∈ l -> f z <> f a) as Hother.
    { intros z Hz Hfz. apply Hfresh. rewrite <- Hfz.
      apply list_elem_of_In, in_map, list_elem_of_In, Hz. }
    apply elem_of_cons in Hx as [-> | Hx]; apply elem_of_cons in Hy as [-> | Hy].
    + reflexivity.
    + destruct (Hother y Hy). congruence.
    + destruct (Hother x Hx). congruence.
    + apply IH; assumption.
Qed.

Lemma stored_elem (wanted : string) (w : World) (t : Tier1.Tier1Transaction) :
  stored wanted w = Some t ->
  t ∈ tier1_transactions (db w) /\ Tier1.transaction_id t = wanted.
Proof.
  unfold stored. intros H. apply find_some in H as [Hin Hmatch]. split.
  - apply list_elem_of_In, Hin.
  - apply String.eqb_eq, Hmatch.
Qed.

(** Under unique keys the UPDATE touches the loaded row and no other. *)
Lemma update_row_target (changed t : Tier1.Tier1Transaction)
    (rows : list Tier1.Tier1Transaction) (r : Tier1.Tier1Transaction) :
  NoDup (map Tier1.id rows) -> t ∈ rows -> Tier1.id changed = Tier1.id t ->
  r ∈ rows -> (Tier1.id r =? Tier1.id changed) = true -> r = t.
Proof.
  intros Hnd Ht Hid Hr Heq. apply Z.eqb_eq in Heq.
  apply (NoDup_map_inj Tier1.id rows); congruence.
Qed.

Lemma update_row_ids (changed t : Tier1.Tier1Transaction)
    (rows : list Tier1.Tier1Transaction) :
  NoDup (map Tier1.id rows) -> t ∈ rows -> Tier1.id changed = Tier1.id t ->
  Tier1.transaction_id changed = Tier1.transaction_id t ->
  map Tier1.transaction_id (Tier1Routes.update_row changed rows)
  = map Tier1.transaction_id rows.
Proof.
  intros Hnd Ht Hid Htid. unfold Tier1Routes.update_row. rewrite map_map.
  apply map_ext_in. intros r Hr. apply list_elem_of_In in Hr.
  destruct (Tier1.id r =? Tier1.id changed) eqn:Heq; [| reflexivity].
  rewrite (update_row_target changed t rows r Hnd Ht Hid Hr Heq). exact Htid.
Qed.

Lemma fresh_id_not_in {A : Type} (f : A -> string) (rows : list A) (x : string) :
  (forall t, t ∈ rows -> f t <> x) -> x ∉ map f rows.
Proof.
  intros Hfresh Hin. apply list_elem_of_In, in_map_iff in Hin as (t & Heq & Hin).
  apply list_elem_of_In in Hin. exact (Hfresh t Hin Heq).
Qed.

Lemma serve_unique_ids (request : Request) (w : World) :
  unique_keys (db w) -> unique_ids (db w) -> unique_ids (db (serve request w)).
Proof.
  intros [_ Hkeys] [Hp Ht]. unfold unique_ids, payment_ids, tier1_ids, tier1_keys in *.
  destruct (serve_effect request w)
    as [-> | [(row & -> & _ & Hfresh) | [(row & -> & _ & Hfresh)
       | [(wanted & t & changed & Hstored & Hid & Htid & ->) | (entities & ->)]]]]; cbn.
  - auto.
  - split; [| exact Ht]. rewrite map_app. cbn.
    apply NoDup_append_fresh; [exact Hp | apply fresh_id_not_in, Hfresh].
  - split; [exact Hp |]. rewrite map_app. cbn.
    apply NoDup_append_fresh; [exact Ht | apply fresh_id_not_in, Hfresh].
  - split; [exact Hp |]. apply stored_elem in Hstored as [Hin _].
    rewrite (update_row_ids changed t _ Hkeys Hin Hid Htid). exact Ht.
  - auto.
Qed.

(** X6.  In a database whose keys are unique, the [transaction_id]s of
    both ledgers stay unique over any sequence of requests: a creation is
    accepted only under a [transaction_id] no row holds, and a status update
    keeps the [transaction_id] of the row it changes. *)
Theorem transaction_ids_stay_unique (requests : list Request) (w : World) :
  unique_keys (db w) -> unique_ids (db w) -> unique_ids (db (serve_all requests w)).
Proof.
  unfold serve_all. revert w.
  induction requests as [| request requests IH]; intros w Hkeys Hids; simpl.
  - exact Hids.
  - apply IH; [apply serve_unique_keys, Hkeys | apply serve_unique_ids; assumption].
Qed.

Lemma transaction_ids_stay_unique_witness :
  unique_ids
    (db (serve_all
           [POST_tier1_transactions Sample.tier1_payment;
            PUT_tier1_transaction_status Sample.tier1_id (Sample.status_is "Success");
            POST_tier1_transactions Sample.tier1_payment;
            POST_transactions Sample.peer (Sample.payment_of 50000)]
           Sample.empty_world)).
Proof.
  apply transaction_ids_stay_unique; split; vm_compute; apply NoDup_nil_2.
Defined.

Lemma next_id_counted (first count : nat) :
  (1 <= first)%nat ->
  foldr Z.max 0 (map Z.of_nat (seq first count))
  = if (count =? 0)%nat then 0 else Z.of_nat (first + count - 1).
Proof.
  revert first. induction count as [| count IH]; intros first Hfirst; [reflexivity |].
  cbn [seq map foldr]. rewrite IH by lia.
  destruct count as [| count]; cbn [Nat.eqb]; lia.
Qed.

Lemma counted_append (keys : list Z) :
  counted_from_one keys -> counted_from_one (keys ++ [next_id keys]).
Proof.
  unfold counted_from_one. intros H.
  rewrite length_app. cbn [length]. rewrite Nat.add_1_r, seq_S, map_app. cbn [map].
  rewrite <- H. f_equal. f_equal. unfold next_id. rewrite H at 1.
  rewrite next_id_counted by lia.
  destruct (length keys) eqn:Hlen; cbn [Nat.eqb]; lia.
Qed.

Lemma serve_counted (request : Request) (w : World) :
  counted_from_one (payment_keys (db w)) /\ counted_from_one (tier1_keys (db w)) ->
  counted_from_one (payment_keys (db (serve request w)))
  /\ counted_from_one (tier1_keys (db (serve request w))).
Proof.
  intros [Hp Ht]. unfold payment_keys, tier1_keys in *.
  destruct (serve_effect request w)
    as [-> | [(row & -> & Hid & _) | [(row & -> & Hid & _)
       | [(wanted & t & changed & _ & _ & _ & ->) | (entities & ->)]]]]; cbn.
  - auto.
  - split; [| exact Ht]. rewrite map_app. cbn. rewrite Hid. apply counted_append, Hp.
  - split; [exact Hp |]. rewrite map_app. cbn. rewrite Hid. apply counted_append, Ht.
  - split; [exact Hp |]. rewrite update_row_keys. exact Ht.
  - auto.
Qed.

(** X7.  Keys are handed out in order and never reused: in ledgers whose
    keys are 1, 2, ..., n in row order (an empty ledger is one), they are
    still 1, 2, ..., n' in row order after any sequence of requests, so a
    row's key is its position and the number of rows is the largest key. *)
Theorem keys_count_from_one (requests : list Request) (w : World) :
  counted_from_one (payment_keys (db w)) /\ counted_from_one (tier1_keys (db w)) ->
  counted_from_one (payment_keys (db (serve_all requests w)))
  /\ counted_from_one (tier1_keys (db (serve_all requests w))).
Proof.
  unfold serve_all. revert w.
  induction requests as [| request requests IH]; intros w Hw; simpl.
  - exact Hw.
  - apply IH, serve_counted, Hw.
Qed.

Lemma keys_count_from_one_witness :
  counted_from_one
    (payment_keys
       (db (serve_all
              [POST_transactions Sample.peer (Sample.payment_of 50000);
               POST_transactions Sample.peer (Sample.payment_of 0);
               POST_tier1_transactions Sample.tier1_payment]
              Sample.empty_world)))
  /\ counted_from_one
       (tier1_keys
          (db (serve_all
                 [POST_transactions Sample.peer (Sample.payment_of 50000);
                  POST_transactions Sample.peer (Sample.payment_of 0);
                  POST_tier1_transactions Sample.tier1_payment]
                 Sample.empty_world))).
Proof.
  apply keys_count_from_one. split; reflexivity.
Defined.

(** ** Looking a transaction up after it was written *)

Lemma find_app_fresh {A : Type} (f : A -> bool) (rows : list A) (x : A) :
  (forall t, t ∈ rows -> f t = false) -> f x = true -> find f (rows ++ [x]) = Some x.
Proof.
  intros Hfresh Hx. induction rows as [| r rows IH]; simpl.
  - rewrite Hx. reflexivity.
  - rewrite (Hfresh r) by left. apply IH. intros t Ht. apply Hfresh. right. exact Ht.
Qed.

Lemma get_tier1_transaction_run (wanted : string) (w : World)
    (t : Tier1.Tier1Transaction) :
  stored wanted w = Some t ->
  Tier1Routes.get_tier1_transaction wanted w
  = (Ok {| Tier1Routes.code := 200;
           Tier1Routes.body := Tier1Routes.BTransaction (Tier1.to_dict t) |}, w).
Proof.
  intros Hstored.
  unfold Tier1Routes.get_tier1_transaction, try_except, Tier1Routes.first_transaction,
    bind, query.
  fold (stored wanted w). rewrite Hstored. reflexivity.
Qed.

(** X8.  A Tier 1 transaction can be fetched as soon as it is created: the
    GET of the [transaction_id] an accepted creation returned answers 200
    with the very dictionary the creation answered. *)
Theorem created_transaction_can_be_fetched (data : gmap string json) (w : World) :
  let answer := Tier1Routes.create_tier1_transaction data w in
  Tier1Routes.status_code answer.1 = 201 ->
  exists row,
    answer.1 = Ok {| Tier1Routes.code := 201;
                     Tier1Routes.body :=
                       Tier1Routes.BMessage "Tier 1 transaction created successfully"
                         (Tier1.to_dict row) |}
    /\ Tier1Routes.get_tier1_transaction (Tier1.d_transaction_id (Tier1.to_dict row)) answer.2
       = (Ok {| Tier1Routes.code := 200;
                Tier1Routes.body := Tier1Routes.BTransaction (Tier1.to_dict row) |},
          answer.2).
Proof.
  intros answer. subst answer. intros Hcode.
  destruct (Tier1Routes.create_tier1_transaction data w) as [r w'] eqn:Hrun.
  apply create_tier1_transaction_inv in Hrun
    as [(field & _ & -> & _) | [(_ & _ & ->) | (_ & row & -> & Hdb & Hfresh & _)]];
    cbn [fst snd] in *; try discriminate Hcode.
  exists row. split; [reflexivity |].
  apply get_tier1_transaction_run. unfold stored. rewrite Hdb.
  cbn [tier1_transactions with_tier1_transactions Tier1.d_transaction_id Tier1.to_dict].
  apply find_app_fresh.
  - intros t Ht. apply String.eqb_neq. apply Hfresh, Ht.
  - apply String.eqb_refl.
Qed.

Lemma created_transaction_can_be_fetched_witness :
  exists row,
    Tier1Routes.get_tier1_transaction (Tier1.d_transaction_id (Tier1.to_dict row))
      Sample.tier1_world
    = (Ok {| Tier1Routes.code := 200;
             Tier1Routes.body := Tier1Routes.BTransaction (Tier1.to_dict row) |},
       Sample.tier1_world).
Proof.
  destruct (created_transaction_can_be_fetched Sample.tier1_payment Sample.empty_world)
    as (row & _ & Hget); [vm_compute; reflexivity |].
  exists row. exact Hget.
Defined.

(** X9.  A status update can be read back: after an update answered 200,
    the GET of the same [transaction_id] answers 200 with the dictionary the
    update answered. *)
Theorem updated_transaction_can_be_fetched (wanted : string) (data : gmap string json)
    (w : World) :
  let answer := Tier1Routes.update_transaction_status wanted data w in
  Tier1Routes.status_code answer.1 = 200 ->
  exists changed,
    answer.1 = Ok {| Tier1Routes.code := 200;
                     Tier1Routes.body :=
                       Tier1Routes.BMessage "Transaction status updated successfully"
                         (Tier1.to_dict changed) |}
    /\ Tier1Routes.get_tier1_transaction wanted answer.2
       = (Ok {| Tier1Routes.code := 200;
                Tier1Routes.body := Tier1Routes.BTransaction (Tier1.to_dict changed) |},
          answer.2).
Proof.
  intros answer. subst answer. intros Hcode.
  destruct (Tier1Routes.update_transaction_status wanted data w) as [r w'] eqn:Hrun.
  apply update_transaction_status_inv in Hrun
    as [(_ & response & -> & Hne)
       | (t & timing & w1 & changed & _ & _ & _ & _ & Hafter & ->)];
    cbn [fst snd] in *.
  - contradiction.
  - exists changed. split; [reflexivity |].
    apply get_tier1_transaction_run, Hafter.
Qed.

Lemma updated_transaction_can_be_fetched_witness :
  exists changed,
    Tier1Routes.get_tier1_transaction Sample.tier1_id Sample.settled_world
    = (Ok {| Tier1Routes.code := 200;
             Tier1Routes.body := Tier1Routes.BTransaction (Tier1.to_dict changed) |},
       Sample.settled_world).
Proof.
  destruct (updated_transaction_can_be_fetched Sample.tier1_id (Sample.status_is "Success")
              Sample.tier1_world)
    as (changed & _ & Hget); [vm_compute; reflexivity |].
  exists changed. exact Hget.
Defined.

(** Every answer of the status update, by whether the transaction exists. *)
Lemma update_transaction_status_codes (wanted : string) (data : gmap string json)
    (w w' : World) (r : result Tier1Routes.Response) :
  Tier1Routes.update_transaction_status wanted data w = (r, w') ->
  (stored wanted w = None /\ w' = w /\ Tier1Routes.status_code r = 404)
  \/ (is_Some (stored wanted w)
      /\ (Tier1Routes.status_code r = 200 \/ Tier1Routes.status_code r = 500)).
Proof.
  unfold Tier1Routes.update_transaction_status, try_except, Tier1Routes.first_transaction.
  unfold bind at 1. unfold query at 1. fold (stored wanted w).
  destruct (stored wanted w) as [t |] eqn:Hstored.
  2: { intros H. injection H as <- <-. left. repeat split. }
  intros H. right. split; [eauto |]. revert H.
  unfold bind at 1.
  destruct (Tier1Routes.update_timing data t w) as [[timing | e] w1].
  2: { intros H. injection H as <- <-. right. reflexivity. }
  unfold bind, utcnow, lift, commit, ret. cbn [db clock clock_reads].
  destruct (Tier1Routes.changed_transaction data t timing (clock w1 (clock_reads w1)));
    intros H; injection H as <- <-; [left | right]; reflexivity.
Qed.

(** X10.  A status update that is not answered 200 stores nothing, and
    it is answered 404 exactly when no transaction has the
    [transaction_id]; a 404 leaves the world untouched. *)
Theorem refused_update_stores_nothing (wanted : string) (data : gmap string json)
    (w : World) :
  let answer := Tier1Routes.update_transaction_status wanted data w in
  (Tier1Routes.status_code answer.1 <> 200 -> db answer.2 = db w)
  /\ (Tier1Routes.status_code answer.1 = 404 <-> stored wanted w = None)
  /\ (stored wanted w = None -> answer.2 = w).
Proof.
  intros answer. subst answer.
  destruct (Tier1Routes.update_transaction_status wanted data w) as [r w'] eqn:Hrun.
  cbn [fst snd]. split; [| split].
  - apply update_transaction_status_inv in Hrun
      as [(Hdb & _) | (t & timing & w1 & changed & _ & _ & _ & _ & _ & ->)].
    + intros _. exact Hdb.
    + intros Hne. contradiction Hne. reflexivity.
  - apply update_transaction_status_codes in Hrun
      as [(Hnone & _ & Hcode) | ([t Hsome] & [Hcode | Hcode])].
    + split; [intros _; exact Hnone | intros _; exact Hcode].
    + rewrite Hcode, Hsome. split; discriminate.
    + rewrite Hcode, Hsome. split; discriminate.
  - intros Hnone.
    apply update_transaction_status_codes in Hrun
      as [(_ & -> & _) | ([t Hsome] & _)]; [reflexivity | congruence].
Qed.

Lemma refused_update_stores_nothing_witness :
  db (Tier1Routes.update_transaction_status "tier1_unknown" (Sample.status_is "Success")
        Sample.tier1_world).2 = db Sample.tier1_world
  /\ Tier1Routes.status_code
       (Tier1Routes.update_transaction_status "tier1_unknown" (Sample.status_is "Success")
          Sample.tier1_world).1 = 404.
Proof.
  split.
  - apply (proj1 (refused_update_stores_nothing "tier1_unknown" (Sample.status_is "Success")
                    Sample.tier1_world)).
    vm_compute. discriminate.
  - apply (proj2 (proj1 (proj2 (refused_update_stores_nothing "tier1_unknown"
                                  (Sample.status_is "Success") Sample.tier1_world)))).
    vm_compute. reflexivity.
Defined.

(** ** What a status update leaves alone *)

Lemma same_payment_refl (t : Tier1.Tier1Transaction) : same_payment t t.
Proof. unfold same_payment. repeat split. Qed.

Lemma same_payment_trans (t t1 t2 : Tier1.Tier1Transaction) :
  same_payment t t1 -> same_payment t1 t2 -> same_payment t t2.
Proof.
  unfold same_payment. intros H1 H2.
  repeat match goal with
    | H : _ /\ _ |- _ => destruct H
    end.
  repeat split; congruence.
Qed.

Lemma changed_transaction_same_payment (data : gmap string json)
    (t changed : Tier1.Tier1Transaction)
    (timing : option datetime * option datetime * option Z) (now : datetime) :
  Tier1Routes.changed_transaction data t timing now = Ok changed -> same_payment t changed.
Proof.
  unfold Tier1Routes.changed_transaction. intros H.
  repeat match type of H with
    | result_bind _ _ = Ok _ => apply result_bind_Ok in H as (? & _ & H)
    end.
  injection H as <-. unfold same_payment. simpl. repeat split.
Qed.

Lemma map_lookup {A B : Type} (f : A -> B) (l : list A) (i : nat) :
  map f l !! i = f <$> (l !! i).
Proof.
  revert i. induction l as [| x l IH]; intros [| i]; simpl; try reflexivity. apply IH.
Qed.

(** The UPDATE by key, row by row: under unique keys the row it replaces
    is the row that was loaded, and every other row stays as it is. *)
Lemma update_row_lookup (changed t : Tier1.Tier1Transaction)
    (rows : list Tier1.Tier1Transaction) (i : nat) (r : Tier1.Tier1Transaction) :
  NoDup (map Tier1.id rows) -> t ∈ rows -> Tier1.id changed = Tier1.id t ->
  rows !! i = Some r ->
  (r = t /\ Tier1Routes.update_row changed rows !! i = Some changed)
  \/ (r <> t /\ Tier1Routes.update_row changed rows !! i = Some r).
Proof.
  intros Hnd Ht Hid Hr. unfold Tier1Routes.update_row.
  rewrite map_lookup, Hr. cbn [fmap option_fmap option_map].
  destruct (Tier1.id r =? Tier1.id changed) eqn:Heq.
  - left. split; [| reflexivity].
    apply (update_row_target changed t rows r); try assumption.
    apply (list_elem_of_lookup_2 _ i), Hr.
  - right. split; [| reflexivity].
    intros ->. apply Z.eqb_neq in Heq. congruence.
Qed.

(** X11.  A status update touches one row.  Under unique primary keys a
    Tier 1 transaction with another [transaction_id] is found after the
    update at the place and with the columns it had before, and the payment
    ledger and the finance entities are as before. *)
Theorem status_update_changes_one_row (wanted : string) (data : gmap string json)
    (w : World) (i : nat) (r : Tier1.Tier1Transaction) :
  NoDup (tier1_keys (db w)) ->
  tier1_transactions (db w) !! i = Some r ->
  Tier1.transaction_id r <> wanted ->
  let after := db (Tier1Routes.update_transaction_status wanted data w).2 in
  tier1_transactions after !! i = Some r
  /\ length (tier1_transactions after) = length (tier1_transactions (db w))
  /\ payment_transactions after = payment_transactions (db w)
  /\ finance_entities after = finance_entities (db w).
Proof.
  intros Hnd Hr Hother after. subst after.
  destruct (Tier1Routes.update_transaction_status wanted data w) as [answer w'] eqn:Hrun.
  cbn [snd].
  apply update_transaction_status_inv in Hrun
    as [(-> & _) | (t & timing & w1 & changed & Hstored & _ & Hchanged & -> & _)];
    [auto |].
  cbn [tier1_transactions payment_transactions finance_entities with_tier1_transactions].
  apply changed_transaction_Ok in Hchanged as (Hid & _).
  apply stored_elem in Hstored as [Ht Htid].
  split; [| split; [| split; reflexivity]].
  - destruct (update_row_lookup changed t _ i r Hnd Ht Hid Hr) as [[-> _] | [_ Hrow]].
    + contradiction.
    + exact Hrow.
  - unfold Tier1Routes.update_row. apply length_map.
Qed.

Lemma status_update_changes_one_row_witness :
  exists r,
    tier1_transactions (db Sample.mixed_world) !! 1%nat = Some r
    /\ tier1_transactions
         (db (Tier1Routes.update_transaction_status Sample.tier1_id
                (Sample.status_is "Failed") Sample.mixed_world).2) !! 1%nat = Some r.
Proof.
  assert (exists r, tier1_transactions (db Sample.mixed_world) !! 1%nat = Some r)
    as [r Hr] by (eexists; vm_compute; reflexivity).
  exists r. split; [exact Hr |].
  apply (status_update_changes_one_row Sample.tier1_id (Sample.status_is "Failed")
           Sample.mixed_world 1 r).
  - apply (bool_decide_unpack _). vm_compute. reflexivity.
  - exact Hr.
  - vm_compute in Hr. injection Hr as <-. vm_compute. discriminate.
Defined.

(** What a request does to the Tier 1 ledger, with the columns an update
    keeps. *)
Lemma serve_tier1_rows (request : Request) (w : World) :
  tier1_transactions (db (serve request w)) = tier1_transactions (db w)
  \/ (exists row,
        tier1_transactions (db (serve request w))
        = (tier1_transactions (db w) ++ [row])%list)
  \/ (exists wanted t changed,
        stored wanted w = Some t
        /\ same_payment t changed
        /\ tier1_transactions (db (serve request w))
           = Tier1Routes.update_row changed (tier1_transactions (db w))).
Proof.
  destruct request as [args | peer data | args | args | data | wanted | wanted data
                      | days | entity_id]; cbn [serve].
  - left. rewrite get_transactions_reads. reflexivity.
  - destruct (AfricanRoutes.create_transaction peer data w) as [r w'] eqn:Hrun.
    pose proof Hrun as Hinv.
    apply create_transaction_inv in Hinv
      as [(field & _ & _ & ->) | [(_ & Hdb & _) | (_ & row & -> & _)]]; cbn [snd].
    + left. reflexivity.
    + left. rewrite Hdb. reflexivity.
    + apply create_transaction_created in Hrun
        as (row' & Hdb & _); [| reflexivity].
      cbn [snd] in Hdb. left. rewrite Hdb. reflexivity.
  - left. rewrite african_overview_reads. reflexivity.
  - left. rewrite get_tier1_transactions_reads. reflexivity.
  - destruct (Tier1Routes.create_tier1_transaction data w) as [r w'] eqn:Hrun.
    apply create_tier1_transaction_inv in Hrun
      as [(field & _ & _ & ->) | [(_ & Hdb & _) | (_ & row & _ & Hdb & _)]];
      cbn [snd].
    + left. reflexivity.
    + left. rewrite Hdb. reflexivity.
    + right. left. exists row. rewrite Hdb. reflexivity.
  - left. rewrite get_tier1_transaction_reads. reflexivity.
  - destruct (Tier1Routes.update_transaction_status wanted data w) as [r w'] eqn:Hrun.
    apply update_transaction_status_inv in Hrun
      as [(Hdb & _) | (t & timing & w1 & changed & Hstored & _ & Hchanged & Hdb & _)];
      cbn [snd]; rewrite Hdb.
    + left. reflexivity.
    + right. right. exists wanted, t, changed.
      split; [exact Hstored |].
      split; [exact (changed_transaction_same_payment _ _ _ _ _ Hchanged) | reflexivity].
  - left. rewrite tier1_overview_reads. reflexivity.
  - destruct (delete_entity_inv entity_id w) as [(_ & ->) | (entity & _ & ->)]; cbn [snd];
      left; reflexivity.
Qed.

Lemma serve_same_payment (request : Request) (w : World) (i : nat)
    (r : Tier1.Tier1Transaction) :
  NoDup (tier1_keys (db w)) ->
  tier1_transactions (db w) !! i = Some r ->
  exists r', tier1_transactions (db (serve request w)) !! i = Some r' /\ same_payment r r'.
Proof.
  intros Hnd Hr.
  destruct (serve_tier1_rows request w)
    as [-> | [(row & ->) | (wanted & t & changed & Hstored & Hsame & ->)]].
  - exists r. split; [exact Hr | apply same_payment_refl].
  - exists r. split; [apply lookup_app_l_Some, Hr | apply same_payment_refl].
  - apply stored_elem in Hstored as [Ht _].
    destruct (update_row_lookup changed t _ i r Hnd Ht (proj1 Hsame) Hr)
      as [[-> Hrow] | [_ Hrow]].
    + exists changed. split; [exact Hrow | exact Hsame].
    + exists r. split; [exact Hrow | apply same_payment_refl].
Qed.

(** X12.  No request rewrites what was paid.  Under unique primary keys,
    over any sequence of requests, a stored Tier 1 transaction keeps its
    place in the ledger and its key, [transaction_id], platform, reference,
    amount, currency, payment method, customer, request data, country,
    network, bank, origin and the times it was initiated and created; only
    the columns of the status update can differ. *)
Theorem payment_columns_are_never_rewritten (requests : list Request) (w : World)
    (i : nat) (r : Tier1.Tier1Transaction) :
  unique_keys (db w) ->
  tier1_transactions (db w) !! i = Some r ->
  exists r',
    tier1_transactions (db (serve_all requests w)) !! i = Some r' /\ same_payment r r'.
Proof.
  unfold serve_all. revert w r.
  induction requests as [| request requests IH]; intros w r Hunique Hr; simpl.
  - exists r. split; [exact Hr | apply same_payment_refl].
  - destruct (serve_same_payment request w i r (proj2 Hunique) Hr) as (r1 & Hr1 & Hsame1).
    destruct (IH _ r1 (serve_unique_keys request w Hunique) Hr1) as (r' & Hr' & Hsame').
    exists r'. split; [exact Hr' | exact (same_payment_trans _ _ _ Hsame1 Hsame')].
Qed.

Lemma payment_columns_are_never_rewritten_witness :
  exists r r',
    tier1_transactions (db Sample.tier1_world) !! 0%nat = Some r
    /\ tier1_transactions
         (db (serve_all
                [PUT_tier1_transaction_status Sample.tier1_id (Sample.status_is "Success");
                 POST_tier1_transactions Sample.tier1_payment;
                 PUT_tier1_transaction_status Sample.tier1_id (Sample.status_is "Failed")]
                Sample.tier1_world)) !! 0%nat = Some r'
    /\ same_payment r r'.
Proof.
  assert (exists r, tier1_transactions (db Sample.tier1_world) !! 0%nat = Some r)
    as [r Hr] by (eexists; vm_compute; reflexivity).
  destruct (payment_columns_are_never_rewritten
              [PUT_tier1_transaction_status Sample.tier1_id (Sample.status_is "Success");
               POST_tier1_transactions Sample.tier1_payment;
               PUT_tier1_transaction_status Sample.tier1_id (Sample.status_is "Failed")]
              Sample.tier1_world 0 r) as (r' & Hr' & Hsame).
  - split; apply (bool_decide_unpack _); vm_compute; reflexivity.
  - exact Hr.
  - exists r, r'. auto.
Defined.

(** What a request does to the payment ledger: nothing, or one more row. *)
Lemma serve_payment_rows (request : Request) (w : World) :
  payment_transactions (db w) `prefix_of` payment_transactions (db (serve request w)).
Proof.
  destruct (serve_effect request w)
    as [-> | [(row & -> & _) | [(row & -> & _)
       | [(wanted & t & changed & _ & _ & _ & ->) | (entities & ->)]]]];
    cbn [payment_transactions with_payment_transactions with_tier1_transactions
         with_finance_entities]; try reflexivity.
  apply prefix_app_r. reflexivity.
Qed.

(** X13.  The payment ledger is append-only.  Over any sequence of
    requests the rows of [payment_transactions] stay in place with every
    column as it was stored, the status included: no endpoint updates a
    payment transaction, so one created [Pending] stays [Pending]. *)
Theorem payment_ledger_is_append_only (requests : list Request) (w : World) :
  payment_transactions (db w)
    `prefix_of` payment_transactions (db (serve_all requests w))
  /\ forall t, t ∈ payment_transactions (db w) ->
       t ∈ payment_transactions (db (serve_all requests w)).
Proof.
  assert (payment_transactions (db w)
            `prefix_of` payment_transactions (db (serve_all requests w))) as Hprefix.
  { unfold serve_all. revert w.
    induction requests as [| request requests IH]; intros w; simpl.
    - reflexivity.
    - etrans; [apply (serve_payment_rows request w) | apply IH]. }
  split; [exact Hprefix |].
  intros t Ht. destruct Hprefix as [more ->]. apply elem_of_app. left. exact Ht.
Qed.

(** ** Currency and country of a payment *)










(** ** The figures of the Tier 1 overview and statistics *)


Lemma filter_all {A : Type} (l : list A) : List.filter (fun _ => true) l = l.
Proof. induction l as [| x l IH]; simpl; [| rewrite IH]; reflexivity. Qed.

Lemma filter_length_le {A : Type} (f g : A -> bool) (l : list A) :
  (forall x, f x = true -> g x = true) ->
  (length (List.filter f l) <= length (List.filter g l))%nat.
Proof.
  intros Hfg. induction l as [| x l IH]; simpl; [lia |].
  destruct (f x) eqn:Hf.
  - rewrite (Hfg x Hf). simpl. lia.
  - destruct (g x); simpl; lia.
Qed.

(** A transaction is of one platform at most: the counts by platform add
    up to no more than the count of all. *)
Lemma platform_counts_le (f : string -> Tier1.Tier1Transaction -> bool)
    (q : Tier1.Tier1Transaction -> bool) (rows : list Tier1.Tier1Transaction) :
  (forall p t, f p t = json_is (Tier1.platform t) p && q t) ->
  (sum_list (map (fun p => length (List.filter (f p) rows)) Tier1Routes.platforms)
   <= length (List.filter q rows))%nat.
Proof.
  intros Hf. unfold Tier1Routes.platforms. cbn [map sum_list foldr]. unfold id.
  induction rows as [| t rows IH]; [simpl; lia |].
  cbn [List.filter]. rewrite !Hf.
  destruct (q t); rewrite ?andb_false_r, ?andb_true_r; [| exact IH].
  destruct (Tier1.platform t) as [| b | z | s | l | l]; cbn [json_is column_is length];
    try lia.
  destruct (String.eqb_spec "mpesa" s) as [<- | _]; [simpl; lia |].
  destruct (String.eqb_spec "mtn_momo" s) as [<- | _]; [simpl; lia |].
  destruct (String.eqb_spec "paystack" s) as [<- | _]; [simpl; lia |].
  destruct (String.eqb_spec "flutterwave" s) as [<- | _]; [simpl; lia |].
  destruct (String.eqb_spec "hubtel" s) as [<- | _]; simpl; lia.
Qed.

Lemma tier1_status_counts_le (rows : list Tier1.Tier1Transaction) :
  (length (List.filter (fun t => json_is (Tier1.status t) "Success") rows)
   + length (List.filter (fun t => json_is (Tier1.status t) "Failed") rows)
   + length (List.filter (fun t => json_is (Tier1.status t) "Pending") rows)
   <= length rows)%nat.
Proof.
  induction rows as [| t rows IH]; simpl; [lia |].
  destruct (json_is (Tier1.status t) "Success") eqn:Hs.
  - rewrite (json_is_exclusive _ "Success" "Failed") by (discriminate || exact Hs).
    rewrite (json_is_exclusive _ "Success" "Pending") by (discriminate || exact Hs).
    simpl. lia.
  - destruct (json_is (Tier1.status t) "Failed") eqn:Hf.
    + rewrite (json_is_exclusive _ "Failed" "Pending") by (discriminate || exact Hf).
      simpl. lia.
    + destruct (json_is (Tier1.status t) "Pending"); simpl; lia.
Qed.


(** X17.  [get_statistics] always answers 200 and leaves the world as it
    was.  Its successful, failed and pending counts add up to no more than
    the total; the platform totals add up to no more than the total and the
    platform successes to no more than the successes; and no platform has
    more successes than transactions. *)
Theorem statistics_counts_are_consistent (w : World) :
  exists s,
    Tier1Routes.get_statistics w
    = (Ok {| Tier1Routes.statistics_code := 200; Tier1Routes.statistics_body := Some s |}, w)
    /\ (Tier1Routes.all_successful (Tier1Routes.transaction_statistics s)
        + Tier1Routes.all_failed (Tier1Routes.transaction_statistics s)
        + Tier1Routes.all_pending (Tier1Routes.transaction_statistics s)
        <= Tier1Routes.all_transactions (Tier1Routes.transaction_statistics s))%nat
    /\ map fst (Tier1Routes.platform_transaction_breakdown s) = Tier1Routes.platforms
    /\ (sum_list (map (fun entry => Tier1Routes.platform_transactions entry.2)
                      (Tier1Routes.platform_transaction_breakdown s))
        <= Tier1Routes.all_transactions (Tier1Routes.transaction_statistics s))%nat
    /\ (sum_list (map (fun entry => Tier1Routes.platform_successful entry.2)
                      (Tier1Routes.platform_transaction_breakdown s))
        <= Tier1Routes.all_successful (Tier1Routes.transaction_statistics s))%nat
    /\ (forall entry, entry ∈ Tier1Routes.platform_transaction_breakdown s ->
          (Tier1Routes.platform_successful entry.2
           <= Tier1Routes.platform_transactions entry.2)%nat).
Proof.
  eexists. split; [reflexivity |].
  cbn [Tier1Routes.transaction_statistics Tier1Routes.platform_transaction_breakdown
       Tier1Routes.all_successful Tier1Routes.all_failed Tier1Routes.all_pending
       Tier1Routes.all_transactions].
  set (rows := tier1_transactions (db w)). unfold Tier1Routes.count_where.
  split; [| split; [reflexivity | split; [| split]]].
  - apply tier1_status_counts_le.
  - pose proof (platform_counts_le (fun p t => json_is (Tier1.platform t) p)
                  (fun _ => true) rows
                  (fun p t => eq_sym (andb_true_r _))) as Hle.
    rewrite filter_all in Hle. exact Hle.
  - exact (platform_counts_le
             (fun p t => json_is (Tier1.platform t) p && json_is (Tier1.status t) "Success")
             (fun t => json_is (Tier1.status t) "Success") rows (fun p t => eq_refl)).
  - intros entry Hin.
    apply list_elem_of_In, in_map_iff in Hin as (p & <- & _). cbn [snd
      Tier1Routes.platform_successful Tier1Routes.platform_transactions].
    apply filter_length_le. intros t Ht. apply andb_true_iff in Ht as [Hp _]. exact Hp.
Qed.




(** ** The payment overview and the system statistics *)





(** ** The period of an overview *)






(** ** Endpoints that read *)

(** X21.  A GET changes nothing but the count of clock readings.  The two
    listings, the lookup and the two overviews leave the database and the
    UUIDs drawn as they were; the listings and the lookup do not read the
    clock either, and an overview reads it once. *)
Theorem reads_change_nothing_but_the_clock (request : Request) (w : World) :
  is_get request = true ->
  db (serve request w) = db w
  /\ uuid_draws (serve request w) = uuid_draws w
  /\ clock (serve request w) = clock w
  /\ (clock_reads w <= clock_reads (serve request w) <= S (clock_reads w))%nat.
Proof.
  destruct request as [args | peer data | args | args | data | wanted | wanted data
                      | days | entity_id]; try discriminate; intros _; cbn [serve].
  - unfold AfricanRoutes.get_transactions, try_except, bind, query, ret.
    destruct (AfricanRoutes.by_start_date args) as [[start_dt |] |];
      destruct (AfricanRoutes.by_end_date args) as [[end_dt |] |];
      cbn [snd]; repeat split; lia.
  - cbn. repeat split; lia.
  - cbn. repeat split; lia.
  - unfold Tier1Routes.get_tier1_transaction, try_except, bind, Tier1Routes.first_transaction,
      query, ret.
    destruct (find _ _); cbn [snd]; repeat split; lia.
  - cbn. repeat split; lia.
Qed.

Lemma reads_change_nothing_but_the_clock_witness :
  db (serve (GET_tier1_analytics_overview None) Sample.mixed_world) = db Sample.mixed_world
  /\ clock_reads (serve (GET_tier1_transaction Sample.tier1_id) Sample.mixed_world)
     = clock_reads Sample.mixed_world.
Proof.
  destruct (reads_change_nothing_but_the_clock (GET_tier1_analytics_overview None)
              Sample.mixed_world eq_refl) as (Hdb & _).
  split; [exact Hdb | reflexivity].
Defined.

(** ** Deleting a finance entity *)

(** X22.  [delete_entity] answers 200 exactly when an entity has the id;
    for an unknown id the [get_or_404] is caught and the answer is 400.
    Afterwards the entities are those that had another id, in both cases,
    so the same DELETE sent again is answered 400; the transaction ledgers
    are not touched. *)
Theorem delete_removes_the_entity_once (entity_id : Z) (w : World) :
  let answer := FinanceRoutes.delete_entity entity_id w in
  (answer.1 = Ok {| FinanceRoutes.code := 200; FinanceRoutes.success := true |}
   \/ answer.1 = Ok {| FinanceRoutes.code := 400; FinanceRoutes.success := false |})
  /\ (answer.1 = Ok {| FinanceRoutes.code := 200; FinanceRoutes.success := true |}
      <-> exists e, e ∈ finance_entities (db w) /\ Finance.id e = entity_id)
  /\ (forall e, e ∈ finance_entities (db answer.2)
                <-> e ∈ finance_entities (db w) /\ Finance.id e <> entity_id)
  /\ (FinanceRoutes.delete_entity entity_id answer.2).1
     = Ok {| FinanceRoutes.code := 400; FinanceRoutes.success := false |}
  /\ payment_transactions (db answer.2) = payment_transactions (db w)
  /\ tier1_transactions (db answer.2) = tier1_transactions (db w).
Proof.
  intros answer. subst answer.
  assert (forall entities e,
            e ∈ List.filter (fun e => negb (Finance.id e =? entity_id)) entities
            <-> e ∈ entities /\ Finance.id e <> entity_id) as Hfilter.
  { intros entities e. rewrite !list_elem_of_In, filter_In, negb_true_iff, Z.eqb_neq.
    reflexivity. }
  assert (forall entities,
            find (fun e => Finance.id e =? entity_id)
                 (List.filter (fun e => negb (Finance.id e =? entity_id)) entities) = None)
    as Hgone.
  { intros entities.
    destruct (find _ (List.filter _ entities)) as [e |] eqn:Hfind; [| reflexivity].
    apply find_some in Hfind as [Hin Hid].
    apply filter_In in Hin as [_ Hother]. rewrite Hid in Hother. discriminate Hother. }
  destruct (delete_entity_inv entity_id w) as [(Hnone & ->) | (entity & Hsome & ->)];
    cbn [fst snd].
  - split; [right; reflexivity |]. split; [| split; [| split; [| split; reflexivity]]].
    + split; [discriminate |]. intros (e & Hin & Hid).
      apply list_elem_of_In in Hin.
      pose proof (find_none _ _ Hnone e Hin) as Hne. cbv beta in Hne.
      apply Z.eqb_neq in Hne. contradiction.
    + intros e. split; [| intros [Hin _]; exact Hin].
      intros Hin. split; [exact Hin |]. intros Hid.
      apply list_elem_of_In in Hin.
      pose proof (find_none _ _ Hnone e Hin) as Hne. cbv beta in Hne.
      apply Z.eqb_neq in Hne. contradiction.
    + destruct (delete_entity_inv entity_id w) as [(_ & ->) | (entity & Hsome & _)];
        [reflexivity | congruence].
  - split; [left; reflexivity |]. split; [| split; [| split; [| split; reflexivity]]].
    + split; [| reflexivity]. intros _. exists entity.
      apply find_some in Hsome as [Hin Hid]. split; [apply list_elem_of_In, Hin |].
      apply Z.eqb_eq, Hid.
    + intros e. cbn [db with_db finance_entities with_finance_entities]. apply Hfilter.
    + match goal with |- (FinanceRoutes.delete_entity _ ?w').1 = _ =>
        destruct (delete_entity_inv entity_id w') as [(_ & ->) | (e & Hfound & _)]
      end; [reflexivity |].
      cbn [db with_db finance_entities with_finance_entities] in Hfound.
      rewrite Hgone in Hfound. discriminate Hfound.
Qed.

(** ** What a Tier 1 creation stores *)




